(** * The prediction service of [app.py]

    A shallow embedding of the Flask handlers [predict] and [healthy_tips]:
    the image stage, the biomedical heuristic, the fusion of the two
    labels and the assembly of the JSON response.

    Library code the handlers call (the Keras model, image decoding,
    [json.loads], the string case of the builtin [float],
    [secure_filename]) is not part of the repository; it enters through
    the record [Env].  Console output ([print]) has no effect on the
    response and is left out. *)

From Stdlib Require Import ZArith Bool List Ascii.
From Stdlib Require Import Floats.SpecFloat.
From stdpp Require Import gmap strings.

Import ListNotations.
Local Open Scope string_scope.

(** ** Python values *)

(** A Python [float] is an IEEE 754 binary64 number. *)
Definition prec : Z := 53.
Definition emax : Z := 1024.

Definition float_of_Z (z : Z) : spec_float := binary_normalize prec emax z 0 false.

(** The float literals of the source: [0.0], [0.5], [7.0], [70.0]. *)
Definition f_0_0 : spec_float := Eval vm_compute in float_of_Z 0.
Definition f_0_5 : spec_float := Eval vm_compute in binary_normalize prec emax 1 (-1) false.
Definition f_7_0 : spec_float := Eval vm_compute in float_of_Z 7.
Definition f_70_0 : spec_float := Eval vm_compute in float_of_Z 70.

(** [a > b] on floats is [b < a]; any comparison with a NaN is false. *)
Definition float_gt (a b : spec_float) : bool := SFltb b a.
Definition float_lt (a b : spec_float) : bool := SFltb a b.

(** What [json.loads] produces.  A [dict] is kept as the list of its
    items in insertion order. *)
#[warnings="-register-all"] Inductive json : Type :=
| JNull
| JBool (b : bool)
| JInt (z : Z)
| JFloat (f : spec_float)
| JStr (s : string)
| JArr (items : list json)
| JObj (items : list (string * json)).

(** The exceptions the handler tells apart, by the first [except] clause of
    lines 97-103 that matches: [json.JSONDecodeError] (a subclass of
    [ValueError]), any other [ValueError], any other [Exception]. *)
Inductive exn_class : Type := JSONDecodeError | ValueError | OtherException.

Record exn : Type := Exn { exn_cls : exn_class; exn_str : string }.

(** ** Strings *)

(** [needle in hay] on Python strings. *)
Fixpoint str_in (needle hay : string) : bool :=
  match hay with
  | EmptyString => String.prefix needle hay
  | String _ rest => String.prefix needle hay || str_in needle rest
  end.

(** Truth value of [None] or a string: only a non-empty string is true. *)
Definition truthy (o : option string) : bool :=
  match o with
  | Some s => negb (String.eqb s "")
  | None => false
  end.

(** [posixpath.join a b]. *)
Definition ends_with_slash (a : string) : bool :=
  match String.get (String.length a - 1) a with
  | Some c => Ascii.eqb c "/"%char
  | None => false
  end.

Definition path_join (a b : string) : string :=
  if String.prefix "/" b then b
  else if String.eqb a "" || ends_with_slash a then a +:+ b
  else a +:+ "/" +:+ b.

Definition UPLOAD_FOLDER : string := "static/uploads".

(** ** Labels *)

Definition NON_AUTISTIC : string := "Non Autistic".
Definition AUTISTIC : string := "Autistic".
Definition RISK : string := "Potential Autism Risk (based on biomedical data)".
Definition LOW_RISK : string := "Low Autism Risk (based on biomedical data)".

Definition HIGHLY_SUGGESTIVE : string := "Highly Suggestive of Autism".
Definition SUGGESTIVE : string := "Suggestive of Autism (consider more tests)".
Definition NOT_AUTISTIC : string := "Not Autistic".
Definition NO_DATA : string := "No data provided for prediction.".
Definition UNABLE : string := "Unable to determine".

(** Lines 69-72: the label of the model's scalar. *)
Definition image_label (prediction : spec_float) : string :=
  if float_gt prediction f_0_5 then NON_AUTISTIC else AUTISTIC.

(** Lines 91-94: the threshold rule. *)
Definition biomedical_label (eeg_score heart_rate : spec_float) : string :=
  if float_gt eeg_score f_7_0 && float_lt heart_rate f_70_0 then RISK else LOW_RISK.

(** [image_result == 'Autistic'] and ['Autism Risk' in biomedical_result]
    on a variable that holds [None] or a string.  The second is evaluated
    only under the guard of line 109, where the variable holds a string. *)
Definition opt_eqb (o : option string) (s : string) : bool :=
  match o with
  | Some x => String.eqb x s
  | None => false
  end.

Definition opt_in (needle : string) (o : option string) : bool :=
  match o with
  | Some hay => str_in needle hay
  | None => false
  end.

(** [f'{x}'] for such a variable. *)
Definition format_opt (o : option string) : string :=
  match o with
  | Some s => s
  | None => "None"
  end.

(** Lines 108-121: the combined prediction.  [final_prediction] starts as
    the placeholder and is reassigned in every branch. *)
Definition fusion (image_result biomedical_result : option string) : string :=
  let final_prediction := UNABLE in
  if truthy image_result && truthy biomedical_result then
    if opt_eqb image_result "Autistic" && opt_in "Autism Risk" biomedical_result then
      HIGHLY_SUGGESTIVE
    else if opt_eqb image_result "Autistic" || opt_in "Autism Risk" biomedical_result then
      SUGGESTIVE
    else
      NOT_AUTISTIC
  else if truthy image_result then
    "Image Prediction: " +:+ format_opt image_result
  else if truthy biomedical_result then
    "Biomedical Prediction: " +:+ format_opt biomedical_result
  else
    NO_DATA.

(** ** The world outside the handler *)

(** A loaded model over arrays of type [A], as the handler uses it:
    [model.predict(a)[0][0]], the float32 scalar read as the binary64
    number of the same value, or the exception the call raises. *)
Definition keras_model (A : Type) : Type := A -> exn + spec_float.

Record Env : Type := {
  (** the arrays [preprocess_image] returns *)
  ndarray : Type;
  (** the global [model]: [None] when [load_model] failed at start-up *)
  model : option (keras_model ndarray);
  (** [werkzeug.utils.secure_filename] *)
  secure_filename : string -> string;
  (** the exception [FileStorage.save] raises for a destination, if any *)
  save_error : string -> option exn;
  (** lines 31-34 of [preprocess_image] applied to the bytes of the file *)
  load_and_scale : string -> exn + ndarray;
  (** [json.loads] *)
  json_loads : string -> exn + json;
  (** [float] on a string; [None] when the string is not a number *)
  float_of_str : string -> option spec_float
}.

(** An uploaded file part and the two request fields [predict] reads:
    [request.files] at ['image'] and [request.form.get('biomedicalData')]. *)
Record FileStorage : Type := { filename : string; stream : string }.

Record Request : Type := {
  files_image : option FileStorage;
  form_biomedicalData : option string
}.

(** External calls, in the order the handler makes them. *)
Inductive call : Type :=
| Save (dst : string)
| PreprocessImage (img_path : string)
| ModelPredict
| JsonLoads (s : string).

(** The files on disk and the calls made so far. *)
Record World : Type := { files : gmap string string; calls : list call }.

(** ** Computations that may raise and change the world *)

Definition M (A : Type) : Type := World -> (exn + A) * World.

Definition ret {A} (a : A) : M A := fun w => (inr a, w).

Definition raise {A} (e : exn) : M A := fun w => (inl e, w).

Definition lift {A} (r : exn + A) : M A := fun w => (r, w).

Definition bind {A B} (m : M A) (k : A -> M B) : M B :=
  fun w =>
    match m w with
    | (inr a, w') => k a w'
    | (inl e, w') => (inl e, w')
    end.

Notation "x <- m ;; k" := (bind m (fun x => k))
  (at level 100, m at next level, right associativity).
Notation "m ;;; k" := (bind m (fun _ => k))
  (at level 100, right associativity).

Definition try_except {A} (m : M A) (handler : exn -> M A) : M A :=
  fun w =>
    match m w with
    | (inl e, w') => handler e w'
    | r => r
    end.

Definition record_call (c : call) : M unit :=
  fun w => (inr tt, {| files := files w; calls := calls w ++ [c] |}).

Definition write_file (dst content : string) : M unit :=
  fun w => (inr tt, {| files := <[dst := content]> (files w); calls := calls w |}).

Definition read_file (path : string) : M string :=
  fun w =>
    match files w !! path with
    | Some content => (inr content, w)
    | None =>
        (inl (Exn OtherException
                ("[Errno 2] No such file or directory: '" +:+ path +:+ "'")), w)
    end.

(** ** Builtins on JSON values *)

Definition type_name (v : json) : string :=
  match v with
  | JNull => "NoneType"
  | JBool _ => "bool"
  | JInt _ => "int"
  | JFloat _ => "float"
  | JStr _ => "str"
  | JArr _ => "list"
  | JObj _ => "dict"
  end.

(** The value a dict holds for a key: of a repeated name the last one. *)
Fixpoint lookup_item (key : string) (items : list (string * json)) : option json :=
  match items with
  | [] => None
  | (k, v) :: rest =>
      match lookup_item key rest with
      | Some v' => Some v'
      | None => if String.eqb k key then Some v else None
      end
  end.

(** [params.get(key, default)]: only a dict has the method. *)
Definition py_get (params : json) (key : string) (default : json) : exn + json :=
  match params with
  | JObj items =>
      inr (match lookup_item key items with Some v => v | None => default end)
  | _ =>
      inl (Exn OtherException
             ("'" +:+ type_name params +:+ "' object has no attribute 'get'"))
  end.

(** [v != ''] *)
Definition ne_empty_str (v : json) : bool :=
  match v with
  | JStr s => negb (String.eqb s "")
  | _ => true
  end.

(** [repr(s)] for a string whose characters are code points below 256:
    double quotes around it when it has a single quote and no double
    quote, single quotes otherwise; the quote in use and the backslash
    escaped; tab, newline and return as letters; the other characters
    that are not printable as [\xhh]. *)
Definition DOUBLE_QUOTE : ascii := ascii_of_nat 34.
Definition SINGLE_QUOTE : ascii := ascii_of_nat 39.
Definition BACKSLASH : ascii := ascii_of_nat 92.

Fixpoint has_char (c : ascii) (s : string) : bool :=
  match s with
  | EmptyString => false
  | String d rest => Ascii.eqb c d || has_char c rest
  end.

Definition hex_digit (n : nat) : ascii :=
  match String.get n "0123456789abcdef" with
  | Some c => c
  | None => "0"%char
  end.

Definition printable (n : nat) : bool :=
  negb ((n <? 32)%nat || (n =? 127)%nat
        || ((128 <=? n)%nat && (n <=? 160)%nat) || (n =? 173)%nat).

Definition repr_char (quote c : ascii) : string :=
  let n := nat_of_ascii c in
  if Ascii.eqb c quote || Ascii.eqb c BACKSLASH then String BACKSLASH (String c "")
  else if (n =? 9)%nat then String BACKSLASH "t"
  else if (n =? 10)%nat then String BACKSLASH "n"
  else if (n =? 13)%nat then String BACKSLASH "r"
  else if printable n then String c ""
  else String BACKSLASH
         (String "x" (String (hex_digit (n / 16)) (String (hex_digit (n mod 16)) ""))).

Fixpoint repr_body (quote : ascii) (s : string) : string :=
  match s with
  | EmptyString => ""
  | String c rest => repr_char quote c +:+ repr_body quote rest
  end.

Definition py_repr (s : string) : string :=
  let quote :=
    if has_char SINGLE_QUOTE s && negb (has_char DOUBLE_QUOTE s)
    then DOUBLE_QUOTE else SINGLE_QUOTE in
  String quote (repr_body quote s +:+ String quote "").

(** [float(v)] *)
Definition py_float (env : Env) (v : json) : exn + spec_float :=
  match v with
  | JFloat f => inr f
  | JInt z =>
      match float_of_Z z with
      | S754_infinity _ => inl (Exn OtherException "int too large to convert to float")
      | f => inr f
      end
  | JBool b => inr (float_of_Z (if b then 1 else 0))
  | JStr s =>
      match float_of_str env s with
      | Some f => inr f
      | None => inl (Exn ValueError ("could not convert string to float: " +:+ py_repr s))
      end
  | JNull | JArr _ | JObj _ =>
      inl (Exn OtherException
             ("float() argument must be a string or a real number, not '"
              +:+ type_name v +:+ "'"))
  end.

(** ** Responses *)

(** A view function returns a JSON body and a status code (200 when the
    source gives none). *)
Definition Response : Type := json * Z.

Definition jsonify (items : list (string * json)) : json := JObj items.

Definition or_null (o : option string) : json :=
  match o with
  | Some s => JStr s
  | None => JNull
  end.

Definition error_response (msg : string) (status : Z) : Response :=
  (jsonify [("error", JStr msg)], status).

(** ** [predict] *)

Section Predict.

Variable env : Env.

(** Lines 27-35: load the stored file, resize, convert, add the batch
    axis, scale. *)
Definition preprocess_image (img_path : string) : M (ndarray env) :=
  record_call (PreprocessImage img_path) ;;;
  content <- read_file img_path ;;
  lift (load_and_scale env content).

(** Lines 60-73.  Returns [image_result] and [img_path]. *)
Definition image_stage (m : keras_model (ndarray env)) (request : Request)
  : M (option string * option string) :=
  match files_image request with
  | Some img_file =>
      if negb (String.eqb (filename img_file) "") then
        let filename := secure_filename env (filename img_file) in
        let img_path := path_join UPLOAD_FOLDER filename in
        record_call (Save img_path) ;;;
        match save_error env img_path with
        | Some e => raise e
        | None => write_file img_path (stream img_file)
        end ;;;
        img_array <- preprocess_image img_path ;;
        record_call ModelPredict ;;;
        prediction <- lift (m img_array) ;;
        ret (Some (image_label prediction), Some img_path)
      else ret (None, None)
  | None => ret (None, None)
  end.

(** Lines 82-89, one field: the default [''] and the empty string give
    [0.0], anything else goes through [float]. *)
Definition read_field (biomedical_params : json) (key : string) : exn + spec_float :=
  match py_get biomedical_params key (JStr "") with
  | inl e => inl e
  | inr v => if ne_empty_str v then py_float env v else inr f_0_0
  end.

(** Lines 79-94, the body of the inner [try]. *)
Definition biomedical_rule (biomedical_data_str : string) : M string :=
  record_call (JsonLoads biomedical_data_str) ;;;
  biomedical_params <- lift (json_loads env biomedical_data_str) ;;
  eeg_score <- lift (read_field biomedical_params "eeg") ;;
  heart_rate <- lift (read_field biomedical_params "heartRate") ;;
  cholesterol <- lift (read_field biomedical_params "cholesterol") ;;
  ret (biomedical_label eeg_score heart_rate).

(** Lines 97-105, the three [except] clauses. *)
Definition biomedical_except (e : exn) : Response :=
  match exn_cls e with
  | JSONDecodeError =>
      error_response
        "Invalid JSON format for biomedical data. Please check your inputs." 400
  | ValueError =>
      error_response
        ("Invalid biomedical data format. Please ensure numerical inputs are numbers: "
         +:+ exn_str e) 400
  | OtherException =>
      error_response ("Error processing biomedical data: " +:+ exn_str e) 400
  end.

(** Lines 76-105.  [inl] is a response returned from inside an [except]
    clause, [inr] the value of [biomedical_result] after the stage. *)
Definition biomedical_stage (request : Request) : M (Response + option string) :=
  let biomedical_data_str := form_biomedicalData request in
  if truthy biomedical_data_str then
    try_except
      (biomedical_result <- biomedical_rule (format_opt biomedical_data_str) ;;
       ret (inr (Some biomedical_result)))
      (fun e => ret (inl (biomedical_except e)))
  else ret (inr None).

(** Lines 125-130. *)
Definition prediction_response
    (image_result biomedical_result : option string) (final_prediction : string)
    (img_path : option string) : Response :=
  (jsonify
     [("image_prediction", or_null image_result);
      ("biomedical_prediction", or_null biomedical_result);
      ("combined_prediction", JStr final_prediction);
      ("image_path",
        if truthy img_path then JStr ("/" +:+ format_opt img_path) else JNull)],
   200%Z).

(** Lines 58-130, the body of the outer [try]. *)
Definition predict_body (m : keras_model (ndarray env)) (request : Request) : M Response :=
  staged <- image_stage m request ;;
  let '(image_result, img_path) := staged in
  early <- biomedical_stage request ;;
  match early with
  | inl response => ret response
  | inr biomedical_result =>
      let final_prediction := fusion image_result biomedical_result in
      ret (prediction_response image_result biomedical_result final_prediction img_path)
  end.

(** Lines 45-134. *)
Definition predict (request : Request) (w : World) : Response * World :=
  match model env with
  | None => (error_response "AI model not loaded on server." 500, w)
  | Some m =>
      match predict_body m request w with
      | (inr response, w') => (response, w')
      | (inl e, w') =>
          (error_response ("An unexpected server error occurred: " +:+ exn_str e) 500, w')
      end
  end.

End Predict.

(** ** [healthy_tips] *)

(** Lines 138-148. *)
Definition tips : list string :=
  [
    "**Early Intervention:** Early diagnosis and intervention can significantly improve outcomes. Therapies like Applied Behavior Analysis (ABA), speech therapy, and occupational therapy can be very beneficial.";
    "**Structured Environment:** Creating a predictable and structured environment can help individuals with autism feel secure and reduce anxiety. Visual schedules and clear routines are often helpful.";
    "**Communication Strategies:** Explore various communication methods, including verbal communication, picture exchange systems (PECS), or augmentative and alternative communication (AAC) devices, to find what works best.";
    "**Sensory Regulation:** Many individuals with autism have sensory sensitivities. Identifying and addressing these sensitivities through sensory diets, calming spaces, or sensory-friendly activities can improve comfort and focus.";
    "**Diet and Nutrition:** While there's no specific 'autism diet,' some families find that dietary interventions (e.g., gluten-free, casein-free diets) can help with certain symptoms. Consult with a healthcare professional before making significant dietary changes.";
    "**Physical Activity:** Regular physical activity can help with motor skills, sensory integration, and overall well-being. Activities like swimming, yoga, or martial arts can be particularly beneficial.";
    "**Support Networks:** Connect with other families, support groups, and organizations dedicated to autism. Sharing experiences and resources can be invaluable.";
    "**Individualized Education Programs (IEPs):** For children, an individualized education program (IEP) tailored to their specific needs can provide necessary academic and developmental support in school.";
    "**Self-Care for Caregivers:** Caring for an individual with autism can be demanding. Prioritizing self-care, seeking respite, and maintaining personal well-being are crucial for caregivers."
  ].

(** Lines 136-149.  The view reads nothing of the request and touches
    nothing outside. *)
Definition healthy_tips (request : Request) (w : World) : Response * World :=
  ((jsonify [("tips", JArr (map JStr tips))], 200%Z), w).

(** ** Start-up *)

(** Lines 19-25: the model file is loaded once; an exception of
    [load_model] is caught and leaves the global [model] at [None]. *)
Definition MODEL_FILE : string := "autism (1).h5".

Definition load_global_model {A : Type} (load_model : string -> exn + keras_model A)
  : option (keras_model A) :=
  match load_model MODEL_FILE with
  | inr loaded => Some loaded
  | inl e => None
  end.

(** ** A concrete deployment

    One instance of [Env], used to run the handlers on concrete requests.
    Each component agrees with the library function it stands for on the
    inputs listed with it; the requests below stay within those inputs. *)

Module Scenario.

(** The character [U+0022], to spell JSON text. *)
Definition dq : string := String (ascii_of_nat 34) EmptyString.

(** [float] on a string of decimal digits. *)
Definition decimal_digit (c : ascii) : option Z :=
  let n := nat_of_ascii c in
  if (48 <=? n)%nat && (n <=? 57)%nat then Some (Z.of_nat (n - 48)) else None.

Fixpoint decimal_value (s : string) (acc : Z) : option Z :=
  match s with
  | EmptyString => Some acc
  | String c rest =>
      match decimal_digit c with
      | Some d => decimal_value rest (10 * acc + d)
      | None => None
      end
  end.

Definition float_of_decimal (s : string) : option spec_float :=
  if String.eqb s "" then None else option_map float_of_Z (decimal_value s 0).

(** Request texts and what [json.loads] makes of them. *)
Definition text_empty_object : string := "{}".
Definition text_thresholds_met : string :=
  "{" +:+ dq +:+ "eeg" +:+ dq +:+ ": " +:+ dq +:+ "8" +:+ dq +:+ ", "
  +:+ dq +:+ "heartRate" +:+ dq +:+ ": " +:+ dq +:+ "60" +:+ dq +:+ ", "
  +:+ dq +:+ "cholesterol" +:+ dq +:+ ": " +:+ dq +:+ "180" +:+ dq +:+ "}".
Definition text_unquoted_key : string := "{eeg: 5}".
Definition text_not_a_number : string :=
  "{" +:+ dq +:+ "eeg" +:+ dq +:+ ": " +:+ dq +:+ "abc" +:+ dq +:+ "}".
Definition text_empty_value : string :=
  "{" +:+ dq +:+ "eeg" +:+ dq +:+ ": " +:+ dq +:+ dq +:+ "}".
Definition text_integer : string := "5".
Definition text_array : string := "[1,2]".

Definition documents : list (string * (exn + json)) :=
  [ (text_empty_object, inr (JObj []));
    (text_thresholds_met,
      inr (JObj [("eeg", JStr "8"); ("heartRate", JStr "60"); ("cholesterol", JStr "180")]));
    (text_unquoted_key,
      inl (Exn JSONDecodeError
             "Expecting property name enclosed in double quotes: line 1 column 2 (char 1)"));
    (text_not_a_number, inr (JObj [("eeg", JStr "abc")]));
    (text_empty_value, inr (JObj [("eeg", JStr "")]));
    (text_integer, inr (JInt 5));
    (text_array, inr (JArr [JInt 1; JInt 2])) ].

Fixpoint find_document (s : string) (docs : list (string * (exn + json)))
  : option (exn + json) :=
  match docs with
  | [] => None
  | (text, r) :: rest => if String.eqb text s then Some r else find_document s rest
  end.

Definition loads (s : string) : exn + json :=
  match find_document s documents with
  | Some r => r
  | None => inl (Exn JSONDecodeError "Expecting value: line 1 column 1 (char 0)")
  end.

(** Uploads.  An array is identified by the bytes it was decoded from; the
    model answers 0.25, 0.5 and 0.75 on the three images. *)
Definition upload_low : FileStorage := {| filename := "low.png"; stream := "image-low" |}.
Definition upload_mid : FileStorage := {| filename := "mid.png"; stream := "image-mid" |}.
Definition upload_high : FileStorage := {| filename := "high.png"; stream := "image-high" |}.
Definition upload_broken : FileStorage := {| filename := "broken.png"; stream := "garbage" |}.
Definition upload_unnamed : FileStorage := {| filename := ""; stream := "" |}.

Definition f_0_25 : spec_float := Eval vm_compute in binary_normalize prec emax 1 (-2) false.
Definition f_0_75 : spec_float := Eval vm_compute in binary_normalize prec emax 3 (-2) false.

Definition decode (content : string) : exn + string :=
  if String.eqb content "garbage"
  then inl (Exn OtherException "cannot identify image file")
  else inr content.

Definition forward (img_array : string) : exn + spec_float :=
  if String.eqb img_array "image-low" then inr f_0_25
  else if String.eqb img_array "image-high" then inr f_0_75
  else inr f_0_5.

Definition deployment (m : option (keras_model string)) : Env :=
  {| ndarray := string;
     model := m;
     secure_filename := fun name => name;
     save_error := fun _ => None;
     load_and_scale := decode;
     json_loads := loads;
     float_of_str := float_of_decimal |}.

Definition serving : Env := deployment (Some forward).
Definition model_missing : Env := deployment None.

Definition start : World := {| files := ∅; calls := [] |}.

Definition request_of (image : option FileStorage) (biomedicalData : option string) : Request :=
  {| files_image := image; form_biomedicalData := biomedicalData |}.

End Scenario.

(** The class of the exception a call raised, if it raised. *)
Definition exn_cls_of {A} (r : exn + A) : option exn_class :=
  match r with
  | inl e => Some (exn_cls e)
  | inr _ => None
  end.

Definition status (r : Response * World) : Z := snd (fst r).
Definition body (r : Response * World) : json := fst (fst r).

(** The member of a JSON object response, e.g. [error] or
    [combined_prediction]. *)
Definition member (key : string) (v : json) : option json :=
  match v with
  | JObj items => lookup_item key items
  | _ => None
  end.

(** ** Vocabulary of the properties *)

(** The number a float stands for: [m * 2^e], an infinity, or none. *)
Inductive extended : Type := NaN | MinusInf | PlusInf | Dyadic (m e : Z).

Definition number (x : spec_float) : extended :=
  match x with
  | S754_zero _ => Dyadic 0 0
  | S754_infinity s => if s then MinusInf else PlusInf
  | S754_nan => NaN
  | S754_finite s m e => Dyadic (cond_Zopp s (Zpos m)) e
  end.

(** [m1 * 2^e1 < m2 * 2^e2], both sides counted in units of the smaller
    power of two. *)
Definition dyadic_ltb (m1 e1 m2 e2 : Z) : bool :=
  let d := Z.min e1 e2 in
  (m1 * 2 ^ (e1 - d) <? m2 * 2 ^ (e2 - d))%Z.

Definition number_ltb (a b : extended) : bool :=
  match a, b with
  | NaN, _ | _, NaN => false
  | _, MinusInf => false
  | MinusInf, _ => true
  | PlusInf, _ => false
  | _, PlusInf => true
  | Dyadic m1 e1, Dyadic m2 e2 => dyadic_ltb m1 e1 m2 e2
  end.

(** The values a Python float can hold. *)
Definition is_float (x : spec_float) : bool := valid_binary prec emax x.

(** The guard of line 60. *)
Definition image_supplied (request : Request) : bool :=
  match files_image request with
  | Some img_file => negb (String.eqb (filename img_file) "")
  | None => false
  end.

(** The world after one more recorded call. *)
Definition after_call (c : call) (w : World) : World :=
  {| files := files w; calls := calls w ++ [c] |}.

(** The biomedical rule as a value: the parsed dict, then the three
    fields in the order of the source, then the label. *)
Definition rule_outcome (env : Env) (biomedical_data_str : string) : exn + string :=
  match json_loads env biomedical_data_str with
  | inl e => inl e
  | inr biomedical_params =>
      match read_field env biomedical_params "eeg" with
      | inl e => inl e
      | inr eeg_score =>
          match read_field env biomedical_params "heartRate" with
          | inl e => inl e
          | inr heart_rate =>
              match read_field env biomedical_params "cholesterol" with
              | inl e => inl e
              | inr _ => inr (biomedical_label eeg_score heart_rate)
              end
          end
      end
  end.

(** The two labels each stage can produce, or none. *)
Definition image_results : list (option string) :=
  [None; Some AUTISTIC; Some NON_AUTISTIC].
Definition biomedical_results : list (option string) :=
  [None; Some RISK; Some LOW_RISK].

(** The third column of the table of section 4.4, by which inputs are
    present: the three verdicts when both are, the prefixed label when one
    is, the notice when none is. *)
Definition table_column (image_result biomedical_result : option string) : list string :=
  match image_result, biomedical_result with
  | Some _, Some _ => [HIGHLY_SUGGESTIVE; SUGGESTIVE; NOT_AUTISTIC]
  | Some l, None => ["Image Prediction: " +:+ l]
  | None, Some l => ["Biomedical Prediction: " +:+ l]
  | None, None => [NO_DATA]
  end.

(** A request with one of its two inputs taken away. *)
Definition without_image (request : Request) : Request :=
  {| files_image := None; form_biomedicalData := form_biomedicalData request |}.

Definition without_biomedical (request : Request) : Request :=
  {| files_image := files_image request; form_biomedicalData := None |}.

(** [img_path] for a file part (lines 62-63). *)
Definition upload_path (env : Env) (img_file : FileStorage) : string :=
  path_join UPLOAD_FOLDER (secure_filename env (filename img_file)).

(** The image stage on a file part it accepts, as a value: the label, or
    the exception of the first step that raises. *)
Definition image_outcome (env : Env) (m : keras_model (ndarray env))
    (img_file : FileStorage) : exn + string :=
  match save_error env (upload_path env img_file) with
  | Some e => inl e
  | None =>
      match load_and_scale env (stream img_file) with
      | inl e => inl e
      | inr img_array =>
          match m img_array with
          | inl e => inl e
          | inr prediction => inr (image_label prediction)
          end
      end
  end.

(** The calls of that stage, up to the step that raises. *)
Definition image_calls (env : Env) (img_file : FileStorage) : list call :=
  let img_path := upload_path env img_file in
  match save_error env img_path with
  | Some _ => [Save img_path]
  | None =>
      match load_and_scale env (stream img_file) with
      | inl _ => [Save img_path; PreprocessImage img_path]
      | inr _ => [Save img_path; PreprocessImage img_path; ModelPredict]
      end
  end.

(** The files after that stage. *)
Definition image_files (env : Env) (img_file : FileStorage) (w : World)
  : gmap string string :=
  match save_error env (upload_path env img_file) with
  | Some _ => files w
  | None => <[upload_path env img_file := stream img_file]> (files w)
  end.

(** The file part the image stage accepts, if the request has one. *)
Definition accepted_image (request : Request) : option FileStorage :=
  match files_image request with
  | Some img_file =>
      if negb (String.eqb (filename img_file) "") then Some img_file else None
  | None => None
  end.

(** The files a request leaves behind. *)
Definition files_after (env : Env) (request : Request) (w : World) : gmap string string :=
  match model env, accepted_image request with
  | Some _, Some img_file => image_files env img_file w
  | _, _ => files w
  end.

(** The label each stage ends with, as a value of the request alone. *)
Definition image_result_of (env : Env) (m : keras_model (ndarray env))
    (request : Request) : exn + option string :=
  match accepted_image request with
  | Some img_file =>
      match image_outcome env m img_file with
      | inl e => inl e
      | inr l => inr (Some l)
      end
  | None => inr None
  end.

Definition biomedical_result_of (env : Env) (request : Request) : exn + option string :=
  match form_biomedicalData request with
  | Some s =>
      if negb (String.eqb s "") then
        match rule_outcome env s with
        | inl e => inl e
        | inr l => inr (Some l)
        end
      else inr None
  | None => inr None
  end.


(** [hay] has [needle] as a run of consecutive characters. *)
Definition contains (needle hay : string) : Prop :=
  exists before after, hay = before +:+ needle +:+ after.

(** A further deployment, for request texts beyond those of [Scenario]. *)
Module Cases.

Definition text_null_field : string :=
  "{" +:+ Scenario.dq +:+ "eeg" +:+ Scenario.dq +:+ ": null}".
Definition text_two_bad_fields : string :=
  "{" +:+ Scenario.dq +:+ "eeg" +:+ Scenario.dq +:+ ": "
  +:+ Scenario.dq +:+ "abc" +:+ Scenario.dq +:+ ", "
  +:+ Scenario.dq +:+ "heartRate" +:+ Scenario.dq +:+ ": null}".
Definition text_eeg_only : string :=
  "{" +:+ Scenario.dq +:+ "eeg" +:+ Scenario.dq +:+ ": "
  +:+ Scenario.dq +:+ "8" +:+ Scenario.dq +:+ "}".
Definition text_heart_rate_only : string :=
  "{" +:+ Scenario.dq +:+ "heartRate" +:+ Scenario.dq +:+ ": "
  +:+ Scenario.dq +:+ "60" +:+ Scenario.dq +:+ "}".

Definition documents : list (string * (exn + json)) :=
  [ (text_null_field, inr (JObj [("eeg", JNull)]));
    (text_two_bad_fields, inr (JObj [("eeg", JStr "abc"); ("heartRate", JNull)]));
    (text_eeg_only, inr (JObj [("eeg", JStr "8")]));
    (text_heart_rate_only, inr (JObj [("heartRate", JStr "60")])) ].

Definition loads (s : string) : exn + json :=
  match Scenario.find_document s documents with
  | Some r => r
  | None => Scenario.loads s
  end.

Definition serving : Env :=
  {| ndarray := string;
     model := Some Scenario.forward;
     secure_filename := fun name => name;
     save_error := fun _ => None;
     load_and_scale := Scenario.decode;
     json_loads := loads;
     float_of_str := Scenario.float_of_decimal |}.

(** [load_model] when the model file is missing, and when it is there. *)
Definition load_fails (path : string) : exn + keras_model string :=
  inl (Exn OtherException "No file or directory found at autism (1).h5").
Definition load_succeeds (path : string) : exn + keras_model string :=
  inr Scenario.forward.

End Cases.

(** A deployment whose request text carries JSON numbers. *)
Module Readings.

Definition text_numbers : string :=
  "{" +:+ Scenario.dq +:+ "eeg" +:+ Scenario.dq +:+ ": 8, "
  +:+ Scenario.dq +:+ "heartRate" +:+ Scenario.dq +:+ ": 60}".

Definition loads (s : string) : exn + json :=
  if String.eqb s text_numbers
  then inr (JObj [("eeg", JInt 8); ("heartRate", JInt 60)])
  else Cases.loads s.

Definition serving : Env :=
  {| ndarray := string;
     model := Some Scenario.forward;
     secure_filename := fun name => name;
     save_error := fun _ => None;
     load_and_scale := Scenario.decode;
     json_loads := loads;
     float_of_str := Scenario.float_of_decimal |}.

End Readings.

(** * Properties *)

(** ** Comparison of floats and the order of numbers *)

Section FloatOrder.

Local Open Scope Z_scope.

Lemma digits2_pos_bounds (m : positive) :
  2 ^ (Zpos (digits2_pos m) - 1) <= Zpos m < 2 ^ Zpos (digits2_pos m).
Proof.
  induction m as [p IH|p IH|]; simpl digits2_pos; [| |simpl; lia];
    rewrite Pos2Z.inj_succ;
    replace (Z.succ (Zpos (digits2_pos p)) - 1)
      with (Z.succ (Zpos (digits2_pos p) - 1)) by lia;
    rewrite !Z.pow_succ_r by lia; lia.
Qed.

Lemma bounded_facts m e :
  bounded prec emax m e = true ->
  -1074 <= e /\ Zpos m < 2 ^ 53 /\ (-1074 < e -> 2 ^ 52 <= Zpos m).
Proof.
  unfold bounded, canonical_mantissa, fexp, emin, prec, emax.
  intros H. apply andb_true_iff in H. destruct H as [H _].
  apply Z.eqb_eq in H.
  pose proof (digits2_pos_bounds m) as [Hlo Hhi].
  assert (Hd : Zpos (digits2_pos m) <= 53) by lia.
  split; [lia|]. split.
  - apply Z.lt_le_trans with (1 := Hhi). apply Z.pow_le_mono_r; lia.
  - intros He. assert (Hn : Zpos (digits2_pos m) = 53) by lia.
    rewrite Hn in Hlo. exact Hlo.
Qed.

Lemma magnitude_order m1 e1 m2 e2 :
  bounded prec emax m1 e1 = true ->
  bounded prec emax m2 e2 = true ->
  e1 < e2 -> Zpos m1 < Zpos m2 * 2 ^ (e2 - e1).
Proof.
  intros H1 H2 He.
  apply bounded_facts in H1. apply bounded_facts in H2.
  destruct H1 as [Hl1 [Hu1 _]]. destruct H2 as [_ [_ Hn2]].
  assert (H52 : 2 ^ 52 <= Zpos m2) by (apply Hn2; lia).
  assert (Hp : 2 ^ 1 <= 2 ^ (e2 - e1)) by (apply Z.pow_le_mono_r; lia).
  change (2 ^ 53) with (2 ^ 52 * 2 ^ 1) in Hu1.
  nia.
Qed.

Lemma pow2_pos k : 0 <= k -> 0 < 2 ^ k.
Proof. intros. apply Z.pow_pos_nonneg; lia. Qed.

Lemma dyadic_ltb_signs m1 e1 m2 e2 :
  (m1 <= 0 -> 0 < m2 -> dyadic_ltb m1 e1 m2 e2 = true)
  /\ (0 <= m1 -> m2 <= 0 -> dyadic_ltb m1 e1 m2 e2 = false)
  /\ (m1 < 0 -> 0 <= m2 -> dyadic_ltb m1 e1 m2 e2 = true).
Proof.
  unfold dyadic_ltb.
  pose proof (pow2_pos (e1 - Z.min e1 e2) ltac:(lia)).
  pose proof (pow2_pos (e2 - Z.min e1 e2) ltac:(lia)).
  repeat split; intros; [apply Z.ltb_lt|apply Z.ltb_ge|apply Z.ltb_lt]; nia.
Qed.

Lemma dyadic_ltb_magnitudes m1 e1 m2 e2 :
  bounded prec emax m1 e1 = true ->
  bounded prec emax m2 e2 = true ->
  dyadic_ltb (Zpos m1) e1 (Zpos m2) e2
  = match Z.compare e1 e2 with
    | Lt => true
    | Gt => false
    | Eq => match Pos.compare_cont Eq m1 m2 with Lt => true | _ => false end
    end.
Proof.
  intros H1 H2. unfold dyadic_ltb.
  destruct (Z.compare_spec e1 e2) as [E|E|E].
  - subst. rewrite Z.min_id, Z.sub_diag, Pos.compare_cont_spec. cbn [Pos.switch_Eq].
    change (2 ^ 0) with 1. rewrite !Z.mul_1_r.
    destruct (Pos.compare_spec m1 m2); [apply Z.ltb_ge|apply Z.ltb_lt|apply Z.ltb_ge]; lia.
  - pose proof (magnitude_order m1 e1 m2 e2 H1 H2 E).
    rewrite Z.min_l by lia. rewrite Z.sub_diag. change (2 ^ 0) with 1.
    apply Z.ltb_lt. lia.
  - pose proof (magnitude_order m2 e2 m1 e1 H2 H1 E).
    rewrite Z.min_r by lia. rewrite Z.sub_diag. change (2 ^ 0) with 1.
    apply Z.ltb_ge. lia.
Qed.

Lemma dyadic_ltb_opp m1 e1 m2 e2 :
  dyadic_ltb (- m1) e1 (- m2) e2 = dyadic_ltb m2 e2 m1 e1.
Proof.
  unfold dyadic_ltb. rewrite (Z.min_comm e2 e1).
  destruct (Z.ltb_spec (m2 * 2 ^ (e2 - Z.min e1 e2)) (m1 * 2 ^ (e1 - Z.min e1 e2)));
    [apply Z.ltb_lt|apply Z.ltb_ge]; lia.
Qed.

Lemma SFltb_number x y :
  is_float x = true ->
  is_float y = true ->
  SFltb x y = number_ltb (number x) (number y).
Proof.
  unfold is_float. intros Hx Hy. unfold SFltb.
  destruct x as [sx|sx| |sx mx ex], y as [sy|sy| |sy my ey];
    cbn [SFcompare number number_ltb];
    try reflexivity; try (destruct sx; reflexivity); try (destruct sy; reflexivity);
    try (destruct sx, sy; reflexivity).
  - destruct (dyadic_ltb_signs 0 0 (cond_Zopp sy (Zpos my)) ey) as [A [B _]].
    destruct sy; cbn [cond_Zopp] in *; symmetry; [apply B|apply A]; lia.
  - destruct (dyadic_ltb_signs (cond_Zopp sx (Zpos mx)) ex 0 0) as [_ [B C]].
    destruct sx; cbn [cond_Zopp] in *; symmetry; [apply C|apply B]; lia.
  - cbn [valid_binary] in Hx, Hy.
    destruct sx, sy; cbn [cond_Zopp].
    + rewrite dyadic_ltb_opp, (dyadic_ltb_magnitudes my ey mx ex Hy Hx).
      rewrite (Z.compare_antisym ey ex), (Pos.compare_cont_spec mx my),
        (Pos.compare_cont_spec my mx). cbn [Pos.switch_Eq].
      rewrite (Pos.compare_antisym my mx).
      destruct (ey ?= ex); cbn [CompOpp]; try reflexivity.
      destruct (my ?= mx)%positive; reflexivity.
    + symmetry. apply (dyadic_ltb_signs (- Zpos mx) ex (Zpos my) ey); lia.
    + symmetry. apply (dyadic_ltb_signs (Zpos mx) ex (- Zpos my) ey); lia.
    + rewrite (dyadic_ltb_magnitudes mx ex my ey Hx Hy).
      destruct (ex ?= ey); reflexivity.
Qed.

(** The comparison does not depend on how a number is written. *)
Lemma dyadic_ltb_unit m1 e1 m2 e2 d :
  d <= Z.min e1 e2 ->
  (m1 * 2 ^ (e1 - d) <? m2 * 2 ^ (e2 - d)) = dyadic_ltb m1 e1 m2 e2.
Proof.
  intros Hd. unfold dyadic_ltb.
  set (c := Z.min e1 e2) in *.
  replace (e1 - d) with ((e1 - c) + (c - d)) by lia.
  replace (e2 - d) with ((e2 - c) + (c - d)) by lia.
  rewrite !Z.pow_add_r by lia.
  pose proof (pow2_pos (c - d) ltac:(lia)) as Hp.
  destruct (Z.ltb_spec (m1 * 2 ^ (e1 - c)) (m2 * 2 ^ (e2 - c)));
    [apply Z.ltb_lt|apply Z.ltb_ge]; nia.
Qed.

Lemma dyadic_ltb_rescale_l m1 e1 k m2 e2 :
  0 <= k -> dyadic_ltb (m1 * 2 ^ k) (e1 - k) m2 e2 = dyadic_ltb m1 e1 m2 e2.
Proof.
  intros Hk.
  rewrite <- (dyadic_ltb_unit m1 e1 m2 e2 (Z.min (e1 - k) e2)) by lia.
  unfold dyadic_ltb.
  replace (e1 - Z.min (e1 - k) e2) with (k + (e1 - k - Z.min (e1 - k) e2)) by lia.
  rewrite Z.pow_add_r by lia. rewrite Z.mul_assoc. reflexivity.
Qed.


Lemma number_ltb_rescale_l m e k b :
  0 <= k -> number_ltb (Dyadic (m * 2 ^ k) (e - k)) b = number_ltb (Dyadic m e) b.
Proof.
  intros Hk. destruct b; try reflexivity. apply dyadic_ltb_rescale_l. exact Hk.
Qed.


(** The three comparisons of the source, on the numbers themselves:
    [x > 1/2], [x > 7], [x < 70]. *)
Lemma float_gt_half x :
  is_float x = true -> float_gt x f_0_5 = number_ltb (Dyadic 1 (-1)) (number x).
Proof.
  intros Hx. unfold float_gt. rewrite (SFltb_number f_0_5 x eq_refl Hx).
  exact (number_ltb_rescale_l 1 (-1) 52 (number x) ltac:(lia)).
Qed.



End FloatOrder.

(** ** Fusion *)

Ltac unfold_labels :=
  unfold HIGHLY_SUGGESTIVE, SUGGESTIVE, NOT_AUTISTIC, NO_DATA, UNABLE,
    NON_AUTISTIC, AUTISTIC, RISK, LOW_RISK in *.

Lemma truthy_Some (s : string) : truthy (Some s) = true <-> s <> "".
Proof.
  unfold truthy. destruct (String.eqb_spec s ""); simpl; split; congruence.
Qed.

Lemma image_label_cases (x : spec_float) :
  image_label x = NON_AUTISTIC \/ image_label x = AUTISTIC.
Proof. unfold image_label. destruct (float_gt x f_0_5); auto. Qed.

Lemma biomedical_label_cases (e h : spec_float) :
  biomedical_label e h = RISK \/ biomedical_label e h = LOW_RISK.
Proof.
  unfold biomedical_label. destruct (float_gt e f_7_0 && float_lt h f_70_0); auto.
Qed.

Lemma fusion_image_only (l : string) :
  l <> "" -> fusion (Some l) None = "Image Prediction: " +:+ l.
Proof.
  intros Hl. apply truthy_Some in Hl. unfold fusion. rewrite Hl. reflexivity.
Qed.

Lemma fusion_biomedical_only (l : string) :
  l <> "" -> fusion None (Some l) = "Biomedical Prediction: " +:+ l.
Proof.
  intros Hl. apply truthy_Some in Hl. unfold fusion. rewrite Hl. reflexivity.
Qed.

Lemma fusion_not_placeholder (i b : option string) : fusion i b <> UNABLE.
Proof.
  unfold fusion.
  repeat match goal with
         | |- context [if ?c then _ else _] => destruct c
         end; unfold_labels; simpl; discriminate.
Qed.

(** ** The stages of [predict] *)

Ltac unfold_M :=
  unfold bind, ret, raise, lift, try_except, record_call, write_file, read_file in *.

Section Stages.

Variable env : Env.

Lemma image_stage_skipped m request w :
  image_supplied request = false ->
  image_stage env m request w = (inr (None, None), w).
Proof.
  unfold image_supplied, image_stage. intros H.
  destruct (files_image request) as [img_file|]; [|reflexivity].
  rewrite H. reflexivity.
Qed.

Lemma image_stage_runs m request w img_file :
  files_image request = Some img_file ->
  filename img_file <> "" ->
  let img_path := path_join UPLOAD_FOLDER (secure_filename env (filename img_file)) in
  forall img_array prediction,
    save_error env img_path = None ->
    load_and_scale env (stream img_file) = inr img_array ->
    m img_array = inr prediction ->
    image_stage env m request w =
      (inr (Some (image_label prediction), Some img_path),
       {| files := <[img_path := stream img_file]> (files w);
          calls := calls w ++ [Save img_path; PreprocessImage img_path; ModelPredict] |}).
Proof.
  intros Hf Hname img_path img_array prediction Hsave Hload Hm.
  unfold image_stage. rewrite Hf.
  destruct (String.eqb_spec (filename img_file) ""); [contradiction|]. simpl.
  fold img_path. unfold preprocess_image. unfold_M. cbn beta iota.
  rewrite Hsave. cbn beta iota.
  cbn [files calls]. rewrite lookup_insert_eq. cbn beta iota. rewrite Hload, Hm.
  cbn [files calls]. repeat rewrite <- app_assoc. reflexivity.
Qed.

Lemma image_stage_label m request w r w' :
  image_stage env m request w = (inr r, w') ->
  (r = (None, None) /\ w' = w) \/
  exists prediction img_path, r = (Some (image_label prediction), Some img_path).
Proof.
  unfold image_stage.
  destruct (files_image request) as [img_file|].
  - destruct (negb (String.eqb (filename img_file) "")).
    + unfold preprocess_image. unfold_M. cbn beta iota.
      destruct (save_error env _); cbn beta iota; [discriminate|].
      cbn [files calls]. rewrite lookup_insert_eq.
      destruct (load_and_scale env _) as [e|a]; [discriminate|].
      destruct (m a) as [e|x]; [discriminate|].
      intros H. inversion H. right. eauto.
    + unfold ret. intros H. inversion H. auto.
  - unfold ret. intros H. inversion H. auto.
Qed.

Lemma biomedical_rule_outcome s w :
  biomedical_rule env s w = (rule_outcome env s, after_call (JsonLoads s) w).
Proof.
  unfold biomedical_rule, rule_outcome, after_call. unfold_M.
  destruct (json_loads env s) as [e|params]; [reflexivity|].
  destruct (read_field env params "eeg"); [reflexivity|].
  destruct (read_field env params "heartRate"); [reflexivity|].
  destruct (read_field env params "cholesterol"); reflexivity.
Qed.

Lemma biomedical_stage_skipped request w :
  truthy (form_biomedicalData request) = false ->
  biomedical_stage env request w = (inr (inr None), w).
Proof. unfold biomedical_stage. intros ->. reflexivity. Qed.

Lemma biomedical_stage_runs request w s :
  form_biomedicalData request = Some s ->
  s <> "" ->
  biomedical_stage env request w =
    (inr match rule_outcome env s with
         | inl e => inl (biomedical_except e)
         | inr biomedical_result => inr (Some biomedical_result)
         end,
     after_call (JsonLoads s) w).
Proof.
  intros Hs Hne. unfold biomedical_stage. rewrite Hs.
  apply truthy_Some in Hne. rewrite Hne. simpl.
  unfold try_except, bind at 1. rewrite biomedical_rule_outcome.
  destruct (rule_outcome env s); reflexivity.
Qed.

End Stages.

(** ** The handler as a whole *)

Section Handler.

Variable env : Env.

Lemma rule_outcome_label s l :
  rule_outcome env s = inr l -> l = RISK \/ l = LOW_RISK.
Proof.
  unfold rule_outcome.
  destruct (json_loads env s) as [e|params]; [discriminate|].
  destruct (read_field env params "eeg") as [e|eeg]; [discriminate|].
  destruct (read_field env params "heartRate") as [e|hr]; [discriminate|].
  destruct (read_field env params "cholesterol") as [e|c]; [discriminate|].
  intros H. inversion H. apply biomedical_label_cases.
Qed.

(** The inner [try] catches everything: the stage itself never raises. *)
Lemma biomedical_stage_cases request w :
  exists w',
    biomedical_stage env request w = (inr (inr None), w') \/
    (exists e, biomedical_stage env request w = (inr (inl (biomedical_except e)), w')) \/
    (exists l, biomedical_stage env request w = (inr (inr (Some l)), w')
               /\ (l = RISK \/ l = LOW_RISK)).
Proof.
  destruct (truthy (form_biomedicalData request)) eqn:Ht.
  - destruct (form_biomedicalData request) as [s|] eqn:Hs; [|discriminate].
    apply truthy_Some in Ht.
    exists (after_call (JsonLoads s) w).
    rewrite (biomedical_stage_runs env request w s Hs Ht).
    destruct (rule_outcome env s) as [e|l] eqn:Ho.
    + right. left. eauto.
    + right. right. exists l. split; [reflexivity|]. eapply rule_outcome_label; eauto.
  - exists w. left. apply biomedical_stage_skipped; assumption.
Qed.

(** With the model loaded and the image stage through, the response is
    decided by the biomedical stage and the fusion. *)
Lemma predict_after_image m request w image_result img_path w1 :
  model env = Some m ->
  image_stage env m request w = (inr (image_result, img_path), w1) ->
  predict env request w =
    match biomedical_stage env request w1 with
    | (inr (inl response), w2) => (response, w2)
    | (inr (inr biomedical_result), w2) =>
        (prediction_response image_result biomedical_result
           (fusion image_result biomedical_result) img_path, w2)
    | (inl e, w2) =>
        (error_response ("An unexpected server error occurred: " +:+ exn_str e) 500, w2)
    end.
Proof.
  intros Hm Hi. unfold predict, predict_body. rewrite Hm.
  unfold bind at 1. rewrite Hi. unfold bind, ret.
  destruct (biomedical_stage env request w1) as [[e|[response|biomedical_result]] w2];
    reflexivity.
Qed.

Lemma predict_image_raises m request w e w1 :
  model env = Some m ->
  image_stage env m request w = (inl e, w1) ->
  predict env request w =
    (error_response ("An unexpected server error occurred: " +:+ exn_str e) 500, w1).
Proof.
  intros Hm Hi. unfold predict, predict_body. rewrite Hm.
  unfold bind at 1. rewrite Hi. reflexivity.
Qed.

(** Every response of [predict] has one of three shapes. *)
Lemma predict_cases request w :
  (exists msg, fst (predict env request w) = error_response msg 500) \/
  (exists msg, fst (predict env request w) = error_response msg 400) \/
  (exists image_result biomedical_result img_path,
      fst (predict env request w) =
        prediction_response image_result biomedical_result
          (fusion image_result biomedical_result) img_path
      /\ (image_result = None \/ image_result = Some NON_AUTISTIC
          \/ image_result = Some AUTISTIC)
      /\ (biomedical_result = None \/ biomedical_result = Some RISK
          \/ biomedical_result = Some LOW_RISK)).
Proof.
  destruct (model env) as [m|] eqn:Hm.
  - destruct (image_stage env m request w) as [[e|[image_result img_path]] w1] eqn:Hi.
    + left. rewrite (predict_image_raises m request w e w1 Hm Hi). simpl. eauto.
    + rewrite (predict_after_image m request w image_result img_path w1 Hm Hi).
      assert (Hlabel : image_result = None \/ image_result = Some NON_AUTISTIC
                       \/ image_result = Some AUTISTIC).
      { apply image_stage_label in Hi. destruct Hi as [[Hr _]|[x [p Hr]]].
        - inversion Hr. auto.
        - inversion Hr. destruct (image_label_cases x) as [-> | ->]; auto. }
      destruct (biomedical_stage_cases request w1) as [w2 [Hb|[[e Hb]|[l [Hb Hl]]]]];
        rewrite Hb.
      * right. right. exists image_result, None, img_path. simpl. auto.
      * right. left. unfold biomedical_except.
        destruct (exn_cls e); simpl; eauto.
      * right. right. exists image_result, (Some l), img_path. simpl.
        split; [reflexivity|]. split; [assumption|].
        destruct Hl as [-> | ->]; auto.
  - left. unfold predict. rewrite Hm. simpl. eauto.
Qed.

End Handler.

Lemma prediction_response_inj i b c p i' b' c' p' :
  prediction_response i b c p = prediction_response i' b' c' p' ->
  i = i' /\ b = b' /\ c = c'.
Proof.
  unfold prediction_response, jsonify, or_null. intros H.
  inversion H as [[Hi Hb Hc Hp]]. clear H Hp.
  destruct i, i', b, b'; try discriminate; inversion Hi; inversion Hb; auto.
Qed.

(** * The claims *)

(** ** Fusion table *)

(** C1 (the code departs from the claim).  The test of lines 110 and 112,
    ['Autism Risk' in biomedical_result], holds for the low-risk label as
    well as for the risk label.  With both labels present the rows of the
    table for the risk label are computed for either label: 'Autistic'
    gives 'Highly Suggestive of Autism' and 'Non Autistic' gives
    'Suggestive of Autism (consider more tests)', also where the claim
    has 'Suggestive of Autism (consider more tests)' and 'Not Autistic'.
    The last conjunct runs the handler on such a request. *)
Theorem C1_low_risk_label_passes_risk_test :
  opt_in "Autism Risk" (Some RISK) = true
  /\ opt_in "Autism Risk" (Some LOW_RISK) = true
  /\ fusion (Some AUTISTIC) (Some RISK) = HIGHLY_SUGGESTIVE
  /\ fusion (Some AUTISTIC) (Some LOW_RISK) = HIGHLY_SUGGESTIVE
  /\ fusion (Some NON_AUTISTIC) (Some RISK) = SUGGESTIVE
  /\ fusion (Some NON_AUTISTIC) (Some LOW_RISK) = SUGGESTIVE
  /\ fst (predict Scenario.serving
            (Scenario.request_of (Some Scenario.upload_low)
               (Some Scenario.text_empty_object))
            Scenario.start)
     = prediction_response (Some AUTISTIC) (Some LOW_RISK) HIGHLY_SUGGESTIVE
         (Some "static/uploads/low.png").
Proof. repeat split; vm_compute; reflexivity. Qed.

(** C4.  On each of the nine combinations of an absent or present image
    label with an absent or present biomedical label, the fusion yields a
    string of the third column of the table for that combination, and the
    placeholder 'Unable to determine' is never the result. *)
Theorem C4_fusion_total_over_nine_inputs :
  forall image_result biomedical_result,
    In image_result image_results ->
    In biomedical_result biomedical_results ->
    In (fusion image_result biomedical_result)
       (table_column image_result biomedical_result)
    /\ fusion image_result biomedical_result <> UNABLE.
Proof.
  intros i b Hi Hb. split; [|apply fusion_not_placeholder].
  unfold image_results, biomedical_results in *. simpl in Hi, Hb.
  destruct Hi as [<-|[<-|[<-|[]]]]; destruct Hb as [<-|[<-|[<-|[]]]];
    vm_compute; auto.
Qed.

Lemma C4_fusion_total_witness :
  In (fusion (Some NON_AUTISTIC) (Some LOW_RISK))
     (table_column (Some NON_AUTISTIC) (Some LOW_RISK))
  /\ fusion (Some NON_AUTISTIC) (Some LOW_RISK) <> UNABLE.
Proof.
  apply (C4_fusion_total_over_nine_inputs (Some NON_AUTISTIC) (Some LOW_RISK)).
  - simpl. right. right. left. reflexivity.
  - simpl. right. right. left. reflexivity.
Defined.

(** The placeholder does not reach a response either. *)
Lemma predict_never_answers_placeholder env request w :
  member "combined_prediction" (body (predict env request w)) <> Some (JStr UNABLE).
Proof.
  unfold body.
  destruct (predict_cases env request w) as [[msg H]|[[msg H]|[i [b [p [H _]]]]]];
    rewrite H; simpl; try discriminate.
  intros E. inversion E as [E']. revert E'. apply fusion_not_placeholder.
Qed.

(** ** Model unavailable *)

(** C7.  With the model not loaded, [predict] answers any request with
    status 500 and an [error] member, and the world is as before: no file
    saved, no call to preprocessing, to the model or to the JSON parser. *)
Theorem C7_model_unavailable :
  forall env request w,
    model env = None ->
    predict env request w = (error_response "AI model not loaded on server." 500, w)
    /\ status (predict env request w) = 500%Z
    /\ member "error" (body (predict env request w))
       = Some (JStr "AI model not loaded on server.")
    /\ calls (snd (predict env request w)) = calls w
    /\ files (snd (predict env request w)) = files w.
Proof.
  intros env request w Hm. unfold predict, status, body. rewrite Hm.
  repeat split; reflexivity.
Qed.

Lemma C7_model_unavailable_witness :
  predict Scenario.model_missing
    (Scenario.request_of (Some Scenario.upload_high) (Some Scenario.text_unquoted_key))
    Scenario.start
  = (error_response "AI model not loaded on server." 500, Scenario.start).
Proof.
  apply (C7_model_unavailable Scenario.model_missing
           (Scenario.request_of (Some Scenario.upload_high)
              (Some Scenario.text_unquoted_key))
           Scenario.start).
  reflexivity.
Defined.

(** ** Tips *)

(** C8.  [healthy_tips] answers every request, in every world, with
    status 200 and the same list of nine strings, and changes nothing. *)
Theorem C8_healthy_tips_fixed :
  length tips = 9
  /\ forall request w,
       healthy_tips request w = ((jsonify [("tips", JArr (map JStr tips))], 200%Z), w)
       /\ forall request' w',
            fst (healthy_tips request' w') = fst (healthy_tips request w).
Proof. split; [reflexivity|]. intros. split; reflexivity. Qed.


(** ** Image label *)

Lemma labels_differ : NON_AUTISTIC <> AUTISTIC /\ RISK <> LOW_RISK.
Proof. split; discriminate. Qed.

(** C3.  When the image stage runs (a file part with a non-empty name,
    stored, decoded, and scored [prediction] by the model), its label is
    'Non Autistic' exactly when [prediction > 0.5] and 'Autistic'
    otherwise; the score 0.5 itself is labelled 'Autistic'.  On a float
    the comparison is that of the number it stands for with 1/2. *)
Theorem C3_image_label_threshold :
  forall env m request w img_file img_array prediction,
    files_image request = Some img_file ->
    filename img_file <> "" ->
    save_error env (path_join UPLOAD_FOLDER (secure_filename env (filename img_file)))
      = None ->
    load_and_scale env (stream img_file) = inr img_array ->
    m img_array = inr prediction ->
    (exists img_path w',
        image_stage env m request w
        = (inr (Some (image_label prediction), Some img_path), w'))
    /\ (image_label prediction = NON_AUTISTIC <-> float_gt prediction f_0_5 = true)
    /\ (image_label prediction = AUTISTIC <-> float_gt prediction f_0_5 = false)
    /\ image_label f_0_5 = AUTISTIC
    /\ (is_float prediction = true ->
        float_gt prediction f_0_5 = number_ltb (Dyadic 1 (-1)) (number prediction)).
Proof.
  intros env m request w img_file img_array prediction Hf Hname Hsave Hload Hm.
  split.
  - eexists. eexists.
    apply (image_stage_runs env m request w img_file Hf Hname img_array prediction
             Hsave Hload Hm).
  - split; [|split; [|split; [reflexivity|apply float_gt_half]]];
      unfold image_label; destruct (float_gt prediction f_0_5);
      split; intros H; try reflexivity; try discriminate H.
Qed.

Lemma C3_image_label_threshold_witness :
  (exists img_path w',
      image_stage Scenario.serving Scenario.forward
        (Scenario.request_of (Some Scenario.upload_mid) None) Scenario.start
      = (inr (Some (image_label f_0_5), Some img_path), w'))
  /\ image_label f_0_5 = AUTISTIC
  /\ float_gt f_0_5 f_0_5 = number_ltb (Dyadic 1 (-1)) (number f_0_5).
Proof.
  pose proof (C3_image_label_threshold Scenario.serving Scenario.forward
                (Scenario.request_of (Some Scenario.upload_mid) None) Scenario.start
                Scenario.upload_mid "image-mid" f_0_5
                eq_refl ltac:(discriminate) eq_refl eq_refl eq_refl)
    as [Hstage [_ [_ [Hhalf Horder]]]].
  split; [exact Hstage|]. split; [exact Hhalf|]. apply Horder. reflexivity.
Defined.

(** Sample comparisons: integers around the thresholds, infinities, NaN. *)
Example float_comparisons_on_samples :
  forallb (fun z => Bool.eqb (float_gt (float_of_Z z) f_7_0) (7 <? z)%Z
                    && Bool.eqb (float_lt (float_of_Z z) f_70_0) (z <? 70)%Z
                    && Bool.eqb (float_gt (float_of_Z z) f_0_5) (0 <? z)%Z)
    (map (fun n => (Z.of_nat n - 200)%Z) (seq 0 400)) = true
  /\ float_gt S754_nan f_0_5 = false
  /\ float_gt (S754_infinity false) f_0_5 = true
  /\ float_gt (S754_infinity true) f_0_5 = false
  /\ float_gt Scenario.f_0_75 f_0_5 = true
  /\ float_gt Scenario.f_0_25 f_0_5 = false.
Proof. repeat split; vm_compute; reflexivity. Qed.

(** ** One stage or none *)

(** C5, as stated, fails.  With the model not loaded and no input,
    neither stage produces a label and the answer is 500 with no
    [combined_prediction].  With a good image and an [eeg] that is not a
    number, the image stage alone produces a label and the answer is 400
    with no [combined_prediction].  With an image that cannot be decoded
    and no biomedical data, neither stage produces a label and the answer
    is 500. *)
Lemma C5_counterexample :
  (status (predict Scenario.model_missing (Scenario.request_of None None)
             Scenario.start) = 500%Z
   /\ member "combined_prediction"
        (body (predict Scenario.model_missing (Scenario.request_of None None)
                 Scenario.start)) = None
   /\ member "image_prediction"
        (body (predict Scenario.model_missing (Scenario.request_of None None)
                 Scenario.start)) = None)
  /\ (fst (image_stage Scenario.serving Scenario.forward
             (Scenario.request_of (Some Scenario.upload_high)
                (Some Scenario.text_not_a_number))
             Scenario.start)
      = inr (Some NON_AUTISTIC, Some "static/uploads/high.png")
      /\ status (predict Scenario.serving
                   (Scenario.request_of (Some Scenario.upload_high)
                      (Some Scenario.text_not_a_number))
                   Scenario.start) = 400%Z
      /\ member "combined_prediction"
           (body (predict Scenario.serving
                    (Scenario.request_of (Some Scenario.upload_high)
                       (Some Scenario.text_not_a_number))
                    Scenario.start)) = None)
  /\ (status (predict Scenario.serving
                (Scenario.request_of (Some Scenario.upload_broken) None)
                Scenario.start) = 500%Z
      /\ member "combined_prediction"
           (body (predict Scenario.serving
                    (Scenario.request_of (Some Scenario.upload_broken) None)
                    Scenario.start)) = None).
Proof. repeat split; vm_compute; reflexivity. Qed.

(** C5, amended.  With the model loaded, let the image stage end with
    [image_result] and the biomedical stage with [biomedical_result],
    neither raising.  The response has status 200 and carries both
    results, [null] for an absent one.  If only the image label is present
    the combined prediction is 'Image Prediction: ' followed by it; if
    only the biomedical label is, 'Biomedical Prediction: ' followed by
    it; if neither is, 'No data provided for prediction.' *)
Theorem C5_single_stage_or_none :
  forall env m request w image_result img_path w1 biomedical_result w2,
    model env = Some m ->
    image_stage env m request w = (inr (image_result, img_path), w1) ->
    biomedical_stage env request w1 = (inr (inr biomedical_result), w2) ->
    status (predict env request w) = 200%Z
    /\ member "image_prediction" (body (predict env request w))
       = Some (or_null image_result)
    /\ member "biomedical_prediction" (body (predict env request w))
       = Some (or_null biomedical_result)
    /\ member "combined_prediction" (body (predict env request w))
       = Some (JStr (fusion image_result biomedical_result))
    /\ match image_result, biomedical_result with
       | Some l, None =>
           fusion image_result biomedical_result = "Image Prediction: " +:+ l
       | None, Some l =>
           fusion image_result biomedical_result = "Biomedical Prediction: " +:+ l
       | None, None =>
           fusion image_result biomedical_result = NO_DATA
           /\ or_null image_result = JNull /\ or_null biomedical_result = JNull
       | Some _, Some _ => True
       end.
Proof.
  intros env m request w i p w1 b w2 Hm Hi Hb.
  rewrite (predict_after_image env m request w i p w1 Hm Hi), Hb.
  unfold status, body. simpl.
  repeat (split; [reflexivity|]).
  destruct i as [l|], b as [l'|]; auto.
  - apply fusion_image_only.
    apply image_stage_label in Hi. destruct Hi as [[Hr _]|[x [q Hr]]].
    + discriminate.
    + inversion Hr as [[Hl Hq]].
      destruct (image_label_cases x) as [E|E]; rewrite E; discriminate.
  - apply fusion_biomedical_only.
    destruct (biomedical_stage_cases env request w1) as [w3 [H|[[e H]|[l [H Hl]]]]];
      rewrite H in Hb; inversion Hb; subst.
    destruct Hl as [E|E]; rewrite E; discriminate.
Qed.

Lemma C5_single_stage_or_none_witness :
  status (predict Scenario.serving
            (Scenario.request_of (Some Scenario.upload_mid) None) Scenario.start)
  = 200%Z
  /\ member "image_prediction"
       (body (predict Scenario.serving
                (Scenario.request_of (Some Scenario.upload_mid) None) Scenario.start))
     = Some (JStr AUTISTIC)
  /\ member "biomedical_prediction"
       (body (predict Scenario.serving
                (Scenario.request_of (Some Scenario.upload_mid) None) Scenario.start))
     = Some JNull
  /\ member "combined_prediction"
       (body (predict Scenario.serving
                (Scenario.request_of (Some Scenario.upload_mid) None) Scenario.start))
     = Some (JStr (fusion (Some AUTISTIC) None))
  /\ fusion (Some AUTISTIC) None = "Image Prediction: " +:+ AUTISTIC.
Proof.
  exact (C5_single_stage_or_none Scenario.serving Scenario.forward
           (Scenario.request_of (Some Scenario.upload_mid) None) Scenario.start
           (Some AUTISTIC) (Some "static/uploads/mid.png")
           {| files := <["static/uploads/mid.png" := "image-mid"]> ∅;
              calls := [Save "static/uploads/mid.png";
                        PreprocessImage "static/uploads/mid.png"; ModelPredict] |}
           None
           {| files := <["static/uploads/mid.png" := "image-mid"]> ∅;
              calls := [Save "static/uploads/mid.png";
                        PreprocessImage "static/uploads/mid.png"; ModelPredict] |}
           eq_refl eq_refl eq_refl).
Defined.

(** ** Biomedical heuristic *)

Lemma read_field_default env items key :
  lookup_item key items = None \/ lookup_item key items = Some (JStr "") ->
  read_field env (JObj items) key = inr f_0_0.
Proof.
  unfold read_field, py_get. intros [-> | ->]; reflexivity.
Qed.

Lemma read_field_float env items key v :
  lookup_item key items = Some v ->
  ne_empty_str v = true ->
  read_field env (JObj items) key = py_float env v.
Proof.
  unfold read_field, py_get. intros -> ->. reflexivity.
Qed.




(** ** Errors of the biomedical stage *)

Lemma biomedical_except_400 (e : exn) :
  exists msg, biomedical_except e = error_response msg 400.
Proof. unfold biomedical_except. destruct (exn_cls e); eauto. Qed.

(** An exception anywhere in the inner [try] ends the request with the
    response of the matching [except] clause. *)
Lemma predict_biomedical_raises env m request w r w1 s e :
  model env = Some m ->
  image_stage env m request w = (inr r, w1) ->
  form_biomedicalData request = Some s ->
  s <> "" ->
  rule_outcome env s = inl e ->
  predict env request w = (biomedical_except e, after_call (JsonLoads s) w1).
Proof.
  intros Hm Hi Hs Hne Ho. destruct r as [image_result img_path].
  rewrite (predict_after_image env m request w image_result img_path w1 Hm Hi).
  rewrite (biomedical_stage_runs env request w1 s Hs Hne), Ho. reflexivity.
Qed.

Lemma rule_outcome_field_raises env s items key e :
  json_loads env s = inr (JObj items) ->
  In key ["eeg"; "heartRate"; "cholesterol"] ->
  read_field env (JObj items) key = inl e ->
  exists e', rule_outcome env s = inl e'.
Proof.
  intros Hj Hk Hr. unfold rule_outcome. rewrite Hj.
  destruct (read_field env (JObj items) "eeg") as [e1|x1] eqn:H1; [eauto|].
  destruct (read_field env (JObj items) "heartRate") as [e2|x2] eqn:H2; [eauto|].
  destruct (read_field env (JObj items) "cholesterol") as [e3|x3] eqn:H3; [eauto|].
  simpl in Hk. destruct Hk as [<-|[<-|[<-|[]]]]; congruence.
Qed.


(** C6, as stated, fails: a request whose [biomedicalData] is malformed
    JSON is answered 500 when the model is not loaded, and 500 when the
    image sent with it cannot be decoded; an empty [biomedicalData], which
    [json.loads] rejects as well, is answered 200; and so is an object
    whose [eeg] is the empty string, which [float] rejects: the field
    reads as 0.0. *)
Lemma C6_counterexample :
  json_loads Scenario.serving Scenario.text_unquoted_key
  = inl (Exn JSONDecodeError
           "Expecting property name enclosed in double quotes: line 1 column 2 (char 1)")
  /\ status (predict Scenario.model_missing
               (Scenario.request_of None (Some Scenario.text_unquoted_key))
               Scenario.start) = 500%Z
  /\ status (predict Scenario.serving
               (Scenario.request_of (Some Scenario.upload_broken)
                  (Some Scenario.text_unquoted_key))
               Scenario.start) = 500%Z
  /\ exn_cls_of (json_loads Scenario.serving "") = Some JSONDecodeError
  /\ status (predict Scenario.serving (Scenario.request_of None (Some ""))
               Scenario.start) = 200%Z
  /\ float_of_str Scenario.serving "" = None
  /\ fst (predict Scenario.serving
            (Scenario.request_of None (Some Scenario.text_empty_value))
            Scenario.start)
     = prediction_response None (Some LOW_RISK)
         ("Biomedical Prediction: " +:+ LOW_RISK) None.
Proof. repeat split; vm_compute; reflexivity. Qed.

(** C6, amended.  Let the model be loaded, the image stage end without
    raising, and [biomedicalData] be a non-empty text.  If [json.loads]
    raises on the text, or the text parses to an object in which [eeg],
    [heartRate] or [cholesterol] holds a value other than the empty string
    that [float] rejects, the response has status 400 and an [error]
    member; no prediction is made from a default. *)
Theorem C6_malformed_biomedical_data_400 :
  forall env m request w r w1 s,
    model env = Some m ->
    image_stage env m request w = (inr r, w1) ->
    form_biomedicalData request = Some s ->
    s <> "" ->
    ((exists e, json_loads env s = inl e)
     \/ (exists items key v e,
            json_loads env s = inr (JObj items)
            /\ In key ["eeg"; "heartRate"; "cholesterol"]
            /\ lookup_item key items = Some v
            /\ ne_empty_str v = true
            /\ py_float env v = inl e)) ->
    exists msg,
      predict env request w = (error_response msg 400, after_call (JsonLoads s) w1)
      /\ status (predict env request w) = 400%Z
      /\ member "error" (body (predict env request w)) = Some (JStr msg)
      /\ member "biomedical_prediction" (body (predict env request w)) = None.
Proof.
  intros env m request w r w1 s Hm Hi Hs Hne Hbad.
  assert (Hraise : exists e, rule_outcome env s = inl e).
  { destruct Hbad as [[e Hj]|[items [key [v [e [Hj [Hk [Hl [Hv Hf]]]]]]]]].
    - exists e. unfold rule_outcome. rewrite Hj. reflexivity.
    - apply (rule_outcome_field_raises env s items key e Hj Hk).
      rewrite (read_field_float env items key v Hl Hv). exact Hf. }
  destruct Hraise as [e He].
  rewrite (predict_biomedical_raises env m request w r w1 s e Hm Hi Hs Hne He).
  destruct (biomedical_except_400 e) as [msg ->].
  exists msg. repeat split; reflexivity.
Qed.

Lemma C6_malformed_biomedical_data_400_witness :
  exists msg,
    predict Scenario.serving
      (Scenario.request_of None (Some Scenario.text_not_a_number)) Scenario.start
    = (error_response msg 400,
       after_call (JsonLoads Scenario.text_not_a_number) Scenario.start)
    /\ status (predict Scenario.serving
                 (Scenario.request_of None (Some Scenario.text_not_a_number))
                 Scenario.start) = 400%Z
    /\ member "error"
         (body (predict Scenario.serving
                  (Scenario.request_of None (Some Scenario.text_not_a_number))
                  Scenario.start)) = Some (JStr msg)
    /\ member "biomedical_prediction"
         (body (predict Scenario.serving
                  (Scenario.request_of None (Some Scenario.text_not_a_number))
                  Scenario.start)) = None.
Proof.
  apply (C6_malformed_biomedical_data_400 Scenario.serving Scenario.forward
           (Scenario.request_of None (Some Scenario.text_not_a_number))
           Scenario.start (None, None) Scenario.start Scenario.text_not_a_number).
  - reflexivity.
  - reflexivity.
  - reflexivity.
  - discriminate.
  - right.
    exists [("eeg", JStr "abc")], "eeg", (JStr "abc"),
      (Exn ValueError "could not convert string to float: 'abc'").
    repeat split; try reflexivity. simpl. left. reflexivity.
Defined.




(** ** Inputs that count as absent *)

Lemma predict_depends_on_stages env request request' w :
  (forall m, image_stage env m request w = image_stage env m request' w) ->
  (forall w1, biomedical_stage env request w1 = biomedical_stage env request' w1) ->
  predict env request w = predict env request' w.
Proof.
  intros Hi Hb. unfold predict, predict_body.
  destruct (model env) as [m|]; [|reflexivity].
  unfold bind. rewrite (Hi m).
  destruct (image_stage env m request' w) as [[e|[i p]] w1]; [reflexivity|].
  rewrite (Hb w1). reflexivity.
Qed.

Lemma null_image_prediction env request w v :
  image_supplied request = false ->
  member "image_prediction" (body (predict env request w)) = Some v -> v = JNull.
Proof.
  intros Hskip. unfold predict, body.
  destruct (model env) as [m|] eqn:Hm; [|simpl; discriminate].
  pose proof (predict_after_image env m request w None None w Hm
                (image_stage_skipped env m request w Hskip)) as Hp.
  unfold predict in Hp. rewrite Hm in Hp. rewrite Hp.
  destruct (biomedical_stage_cases env request w) as [w2 [H|[[e H]|[l [H _]]]]];
    rewrite H; simpl.
  - intros E. inversion E. reflexivity.
  - destruct (biomedical_except_400 e) as [msg ->]. simpl. discriminate.
  - intros E. inversion E. reflexivity.
Qed.

Lemma null_biomedical_prediction env request w v :
  truthy (form_biomedicalData request) = false ->
  member "biomedical_prediction" (body (predict env request w)) = Some v -> v = JNull.
Proof.
  intros Hskip. unfold predict, body.
  destruct (model env) as [m|] eqn:Hm; [|simpl; discriminate].
  destruct (image_stage env m request w) as [[e|[i p]] w1] eqn:Hi.
  - pose proof (predict_image_raises env m request w e w1 Hm Hi) as Hp.
    unfold predict in Hp. rewrite Hm in Hp. rewrite Hp. simpl. discriminate.
  - pose proof (predict_after_image env m request w i p w1 Hm Hi) as Hp.
    unfold predict in Hp. rewrite Hm in Hp. rewrite Hp.
    rewrite (biomedical_stage_skipped env request w1 Hskip). simpl.
    intros E. inversion E. reflexivity.
Qed.

(** C10, as stated, fails.  A file part with an empty name is answered
    500 when the model is not loaded and 400 when the biomedical text is
    malformed, an empty [biomedicalData] is answered 500 when the image
    cannot be decoded: each time an error, with no prediction member in
    the response. *)
Lemma C10_counterexample :
  (status (predict Scenario.model_missing
             (Scenario.request_of (Some Scenario.upload_unnamed) None)
             Scenario.start) = 500%Z
   /\ member "image_prediction"
        (body (predict Scenario.model_missing
                 (Scenario.request_of (Some Scenario.upload_unnamed) None)
                 Scenario.start)) = None)
  /\ (status (predict Scenario.serving
                (Scenario.request_of (Some Scenario.upload_unnamed)
                   (Some Scenario.text_unquoted_key))
                Scenario.start) = 400%Z
      /\ member "image_prediction"
           (body (predict Scenario.serving
                    (Scenario.request_of (Some Scenario.upload_unnamed)
                       (Some Scenario.text_unquoted_key))
                    Scenario.start)) = None)
  /\ (status (predict Scenario.serving
                (Scenario.request_of (Some Scenario.upload_broken) (Some ""))
                Scenario.start) = 500%Z
      /\ member "biomedical_prediction"
           (body (predict Scenario.serving
                    (Scenario.request_of (Some Scenario.upload_broken) (Some ""))
                    Scenario.start)) = None).
Proof. repeat split; vm_compute; reflexivity. Qed.

(** C10, amended.  A file part whose name is empty is handled as no file
    part: the image stage returns at once with no label, making no call,
    and the response and the world are those of the same request without
    the part.  When the model is loaded and the biomedical stage does not
    raise, the response has status 200 and its [image_prediction] and
    [image_path] are [null]; in no case is [image_prediction] anything
    but [null].  Likewise an empty [biomedicalData] is handled as a
    missing one: the stage makes no call, and when the model is loaded
    and the image stage does not raise the response has status 200 and
    its [biomedical_prediction] is [null]. *)
Theorem C10_empty_input_is_absent :
  forall env request w,
    (forall img_file,
        files_image request = Some img_file ->
        filename img_file = "" ->
        (forall m, image_stage env m request w = (inr (None, None), w))
        /\ predict env request w = predict env (without_image request) w
        /\ (forall v, member "image_prediction" (body (predict env request w)) = Some v ->
                      v = JNull)
        /\ (forall m biomedical_result w2,
              model env = Some m ->
              biomedical_stage env request w = (inr (inr biomedical_result), w2) ->
              status (predict env request w) = 200%Z
              /\ member "image_prediction" (body (predict env request w)) = Some JNull
              /\ member "image_path" (body (predict env request w)) = Some JNull
              /\ member "biomedical_prediction" (body (predict env request w))
                 = Some (or_null biomedical_result)))
    /\ (form_biomedicalData request = Some "" ->
        (forall w1, biomedical_stage env request w1 = (inr (inr None), w1))
        /\ predict env request w = predict env (without_biomedical request) w
        /\ (forall v, member "biomedical_prediction" (body (predict env request w)) = Some v ->
                      v = JNull)
        /\ (forall m image_result img_path w1,
              model env = Some m ->
              image_stage env m request w = (inr (image_result, img_path), w1) ->
              predict env request w
              = (prediction_response image_result None (fusion image_result None)
                   img_path, w1)
              /\ status (predict env request w) = 200%Z
              /\ member "biomedical_prediction" (body (predict env request w))
                 = Some JNull
              /\ member "image_prediction" (body (predict env request w))
                 = Some (or_null image_result))).
Proof.
  intros env request w. split.
  - intros img_file Hf Hname.
    assert (Hskip : image_supplied request = false).
    { unfold image_supplied. rewrite Hf, Hname. reflexivity. }
    split; [|split; [|split]].
    + intros m. apply image_stage_skipped. exact Hskip.
    + apply predict_depends_on_stages.
      * intros m. rewrite (image_stage_skipped env m request w Hskip). reflexivity.
      * intros w1. reflexivity.
    + intros v. apply null_image_prediction. exact Hskip.
    + intros m b w2 Hm Hb.
      rewrite (predict_after_image env m request w None None w Hm
                 (image_stage_skipped env m request w Hskip)), Hb.
      unfold status, body. repeat split; reflexivity.
  - intros Hs.
    assert (Hskip : truthy (form_biomedicalData request) = false).
    { rewrite Hs. reflexivity. }
    split; [|split; [|split]].
    + intros w1. apply biomedical_stage_skipped. exact Hskip.
    + apply predict_depends_on_stages.
      * intros m. reflexivity.
      * intros w1. rewrite (biomedical_stage_skipped env request w1 Hskip). reflexivity.
    + intros v. apply null_biomedical_prediction. exact Hskip.
    + intros m i p w1 Hm Hi.
      rewrite (predict_after_image env m request w i p w1 Hm Hi).
      rewrite (biomedical_stage_skipped env request w1 Hskip).
      unfold status, body. repeat split; reflexivity.
Qed.

Lemma C10_empty_input_is_absent_witness :
  (predict Scenario.serving
     (Scenario.request_of (Some Scenario.upload_unnamed)
        (Some Scenario.text_thresholds_met))
     Scenario.start
   = predict Scenario.serving
       (Scenario.request_of None (Some Scenario.text_thresholds_met)) Scenario.start
   /\ status (predict Scenario.serving
                (Scenario.request_of (Some Scenario.upload_unnamed)
                   (Some Scenario.text_thresholds_met))
                Scenario.start) = 200%Z
   /\ member "image_prediction"
        (body (predict Scenario.serving
                 (Scenario.request_of (Some Scenario.upload_unnamed)
                    (Some Scenario.text_thresholds_met))
                 Scenario.start)) = Some JNull)
  /\ (predict Scenario.serving
        (Scenario.request_of (Some Scenario.upload_high) (Some "")) Scenario.start
      = predict Scenario.serving
          (Scenario.request_of (Some Scenario.upload_high) None) Scenario.start
      /\ status (predict Scenario.serving
                   (Scenario.request_of (Some Scenario.upload_high) (Some ""))
                   Scenario.start) = 200%Z
      /\ member "biomedical_prediction"
           (body (predict Scenario.serving
                    (Scenario.request_of (Some Scenario.upload_high) (Some ""))
                    Scenario.start)) = Some JNull).
Proof.
  split.
  - destruct (proj1 (C10_empty_input_is_absent Scenario.serving
                       (Scenario.request_of (Some Scenario.upload_unnamed)
                          (Some Scenario.text_thresholds_met))
                       Scenario.start)
                Scenario.upload_unnamed eq_refl eq_refl) as [_ [Hsame [_ Hok]]].
    destruct (Hok Scenario.forward (Some RISK)
                (after_call (JsonLoads Scenario.text_thresholds_met) Scenario.start)
                eq_refl eq_refl) as [H200 [Hnull _]].
    split; [exact Hsame|]. split; [exact H200|exact Hnull].
  - destruct (proj2 (C10_empty_input_is_absent Scenario.serving
                       (Scenario.request_of (Some Scenario.upload_high) (Some ""))
                       Scenario.start)
                eq_refl) as [_ [Hsame [_ Hok]]].
    destruct (Hok Scenario.forward (Some NON_AUTISTIC)
                (Some "static/uploads/high.png")
                {| files := <["static/uploads/high.png" := "image-high"]> ∅;
                   calls := [Save "static/uploads/high.png";
                             PreprocessImage "static/uploads/high.png";
                             ModelPredict] |}
                eq_refl eq_refl) as [_ [H200 [Hnull _]]].
    split; [exact Hsame|]. split; [exact H200|exact Hnull].
Defined.

(** * Further properties of the handlers *)

(** ** The image stage as a value *)

Lemma image_stage_accepts env m request w img_file :
  accepted_image request = Some img_file ->
  image_stage env m request w
  = (match image_outcome env m img_file with
     | inl e => inl e
     | inr l => inr (Some l, Some (upload_path env img_file))
     end,
     {| files := image_files env img_file w;
        calls := calls w ++ image_calls env img_file |}).
Proof.
  unfold accepted_image, image_stage, image_outcome, image_calls, image_files,
    upload_path.
  destruct (files_image request) as [f|]; [|discriminate].
  destruct (negb (String.eqb (filename f) "")); [|discriminate].
  intros H. inversion H. subst f.
  unfold preprocess_image. unfold_M. cbn beta iota.
  destruct (save_error env _); cbn beta iota; [reflexivity|].
  cbn [files calls]. rewrite lookup_insert_eq. cbn beta iota.
  destruct (load_and_scale env (stream img_file)) as [e|a]; cbn beta iota.
  - rewrite <- app_assoc. reflexivity.
  - cbn [files calls]. repeat rewrite <- app_assoc.
    destruct (m a); reflexivity.
Qed.

Lemma image_stage_declines env m request w :
  accepted_image request = None ->
  image_stage env m request w = (inr (None, None), w).
Proof.
  intros H. apply image_stage_skipped. unfold image_supplied.
  unfold accepted_image in H. destruct (files_image request) as [f|]; [|reflexivity].
  destruct (negb (String.eqb (filename f) "")); [discriminate|reflexivity].
Qed.

(** ** Substrings *)

Lemma prefix_spec (needle hay : string) :
  String.prefix needle hay = true <-> exists after, hay = needle +:+ after.
Proof.
  revert hay. induction needle as [|a needle IH]; intros hay.
  - split; [intros _; exists hay; reflexivity|]. intros _. destruct hay; reflexivity.
  - destruct hay as [|b hay]; simpl.
    + split; [discriminate|]. intros [after H]. discriminate H.
    + destruct (Ascii.ascii_dec a b) as [->|Hne].
      * rewrite IH. split; intros [after H]; exists after.
        -- rewrite H. reflexivity.
        -- inversion H. reflexivity.
      * split; [discriminate|]. intros [after H]. inversion H. congruence.
Qed.

Lemma str_in_spec (needle hay : string) :
  str_in needle hay = true <-> contains needle hay.
Proof.
  unfold contains. induction hay as [|c hay IH]; cbn [str_in].
  - rewrite prefix_spec. split.
    + intros [after H]. exists "", after. exact H.
    + intros [before [after H]]. destruct before; [|discriminate H].
      exists after. exact H.
  - rewrite orb_true_iff, IH, (prefix_spec needle (String c hay)). split.
    + intros [[after H]|[before [after H]]].
      * exists "", after. exact H.
      * exists (String c before), after. rewrite H. reflexivity.
    + intros [before [after H]]. destruct before as [|b before].
      * left. exists after. exact H.
      * right. inversion H. exists before, after. reflexivity.
Qed.

Lemma str_in_false (needle hay : string) :
  str_in needle hay = false <-> ~ contains needle hay.
Proof.
  rewrite <- str_in_spec. destruct (str_in needle hay); split; intros H;
    try reflexivity; try discriminate; try (intros E; discriminate E).
  exfalso. apply H. reflexivity.
Qed.

(** ** Shape of the responses *)

(** X1.  Every response of [predict] has one of three shapes: status 500
    or status 400 with a body of the single member [error], a string; or
    status 200 with a body of the four members [image_prediction],
    [biomedical_prediction], [combined_prediction] and [image_path], in
    which each label is [null] or one of its two fixed strings and the
    combined prediction is the fusion of the two labels. *)
Theorem X1_response_shape :
  forall env request w,
    (exists msg,
        (status (predict env request w) = 500%Z \/ status (predict env request w) = 400%Z)
        /\ body (predict env request w) = JObj [("error", JStr msg)])
    \/ (exists image_result biomedical_result image_path,
           status (predict env request w) = 200%Z
           /\ body (predict env request w)
              = JObj [("image_prediction", or_null image_result);
                      ("biomedical_prediction", or_null biomedical_result);
                      ("combined_prediction",
                        JStr (fusion image_result biomedical_result));
                      ("image_path", or_null image_path)]
           /\ In image_result image_results
           /\ In biomedical_result biomedical_results).
Proof.
  intros env request w. unfold status, body.
  destruct (predict_cases env request w) as [[msg H]|[[msg H]|[i [b [p [H [Hi Hb]]]]]]];
    rewrite H.
  - left. exists msg. simpl. auto.
  - left. exists msg. simpl. auto.
  - right.
    exists i, b, (if truthy p then Some ("/" +:+ format_opt p) else None).
    simpl. split; [reflexivity|]. split.
    + destruct (truthy p); reflexivity.
    + unfold image_results, biomedical_results. simpl.
      split; [destruct Hi as [->|[->| ->]]|destruct Hb as [->|[->| ->]]]; auto.
Qed.

(** X2.  No response of [predict] carries the combined prediction
    'Not Autistic': the branch of line 115 is never the one taken. *)
Theorem X2_not_autistic_never_answered :
  forall env request w,
    member "combined_prediction" (body (predict env request w))
    <> Some (JStr NOT_AUTISTIC).
Proof.
  intros env request w. unfold body.
  destruct (predict_cases env request w) as [[msg H]|[[msg H]|[i [b [p [H [Hi Hb]]]]]]];
    rewrite H; simpl; try discriminate.
  destruct Hi as [->|[->| ->]]; destruct Hb as [->|[->| ->]];
    vm_compute; discriminate.
Qed.

(** ** Fusion on arbitrary labels *)

(** X3.  For two non-empty labels the fusion is decided by two tests,
    whether the image label is 'Autistic' and whether the biomedical
    label contains 'Autism Risk': both give 'Highly Suggestive of
    Autism', exactly one gives 'Suggestive of Autism (consider more
    tests)', none gives 'Not Autistic'. *)
Theorem X3_fusion_of_two_labels :
  forall image_result biomedical_result,
    image_result <> "" ->
    biomedical_result <> "" ->
    (fusion (Some image_result) (Some biomedical_result) = HIGHLY_SUGGESTIVE
     <-> image_result = "Autistic" /\ contains "Autism Risk" biomedical_result)
    /\ (fusion (Some image_result) (Some biomedical_result) = NOT_AUTISTIC
        <-> image_result <> "Autistic" /\ ~ contains "Autism Risk" biomedical_result)
    /\ (fusion (Some image_result) (Some biomedical_result) = SUGGESTIVE
        <-> (image_result = "Autistic" /\ ~ contains "Autism Risk" biomedical_result)
            \/ (image_result <> "Autistic" /\ contains "Autism Risk" biomedical_result)).
Proof.
  intros i b Hi Hb.
  apply truthy_Some in Hi. apply truthy_Some in Hb.
  unfold fusion. rewrite Hi, Hb. cbn [andb opt_eqb opt_in].
  destruct (String.eqb_spec i "Autistic") as [Ei|Ei];
    destruct (str_in "Autism Risk" b) eqn:Eb;
    [apply str_in_spec in Eb|apply str_in_false in Eb
    |apply str_in_spec in Eb|apply str_in_false in Eb];
    cbn [andb orb]; unfold_labels;
    (split; [|split]); split; intros H; try discriminate H; try reflexivity;
    try tauto.
Qed.

Lemma X3_fusion_of_two_labels_witness :
  fusion (Some "Non Autistic") (Some "No risk found") = NOT_AUTISTIC.
Proof.
  destruct (X3_fusion_of_two_labels "Non Autistic" "No risk found"
              ltac:(discriminate) ltac:(discriminate)) as [_ [H _]].
  apply H. split; [discriminate|].
  apply str_in_false. reflexivity.
Defined.

(** ** Effects of a request *)

Lemma world_eta (w : World) : w = {| files := files w; calls := calls w ++ [] |}.
Proof. destruct w as [f c]. simpl. rewrite app_nil_r. reflexivity. Qed.

Lemma accepted_image_Some request img_file :
  files_image request = Some img_file ->
  filename img_file <> "" ->
  accepted_image request = Some img_file.
Proof.
  intros Hf Hname. unfold accepted_image. rewrite Hf.
  destruct (String.eqb_spec (filename img_file) ""); [contradiction|reflexivity].
Qed.

Lemma image_calls_no_parse env img_file s :
  ~ In (JsonLoads s) (image_calls env img_file).
Proof.
  unfold image_calls.
  destruct (save_error env _); [|destruct (load_and_scale env _)];
    simpl; intros H; repeat (destruct H as [H|H]; [discriminate H|]); exact H.
Qed.

(** The biomedical stage returns the same value from every world, leaves
    the files alone and appends the same calls. *)
Lemma biomedical_stage_uniform env request :
  exists r made,
    (made = [] \/ exists s, made = [JsonLoads s])
    /\ forall w,
         biomedical_stage env request w
         = (inr r, {| files := files w; calls := calls w ++ made |}).
Proof.
  destruct (truthy (form_biomedicalData request)) eqn:Ht.
  - destruct (form_biomedicalData request) as [s|] eqn:Hs; [|discriminate].
    apply truthy_Some in Ht.
    eexists. exists [JsonLoads s]. split; [eauto|]. intros w.
    rewrite (biomedical_stage_runs env request w s Hs Ht). reflexivity.
  - exists (inr None), []. split; [auto|]. intros w.
    rewrite (biomedical_stage_skipped env request w Ht). f_equal. apply world_eta.
Qed.

(** With [save_error] and [load_and_scale] taken as they are in [Env],
    the files a request leaves are [files_after] and its calls are
    appended to those made before. *)
Lemma predict_uniform env request :
  exists response made,
    forall w,
      predict env request w
      = (response, {| files := files_after env request w; calls := calls w ++ made |}).
Proof.
  unfold files_after.
  destruct (model env) as [m|] eqn:Hm.
  - destruct (biomedical_stage_uniform env request) as [r [made [_ Hb]]].
    destruct (accepted_image request) as [f|] eqn:Ha.
    + destruct (image_outcome env m f) as [e|l] eqn:Ho.
      * eexists. exists (image_calls env f). intros w.
        apply (predict_image_raises env m request w e _ Hm).
        rewrite (image_stage_accepts env m request w f Ha), Ho. reflexivity.
      * destruct r as [response|biomedical_result];
          eexists; exists (image_calls env f ++ made)%list; intros w;
          (rewrite (predict_after_image env m request w (Some l)
                      (Some (upload_path env f))
                      {| files := image_files env f w;
                         calls := calls w ++ image_calls env f |} Hm);
           [rewrite Hb; cbn [files calls]; rewrite <- app_assoc; reflexivity
           |rewrite (image_stage_accepts env m request w f Ha), Ho; reflexivity]).
    + destruct r as [response|biomedical_result];
        eexists; exists made; intros w;
        rewrite (predict_after_image env m request w None None w Hm
                   (image_stage_declines env m request w Ha));
        rewrite Hb; reflexivity.
  - eexists. exists []. intros w. unfold predict. rewrite Hm.
    f_equal. apply world_eta.
Qed.

(** X4.  With the model loaded, if storing the accepted file part,
    decoding it, or the model's call raises [e], the response is status
    500 with the message 'An unexpected server error occurred: ' followed
    by the text of [e], and [biomedicalData], whatever it holds, is not
    parsed. *)
Theorem X4_image_failure_ends_the_request :
  forall env m request w img_file e,
    model env = Some m ->
    files_image request = Some img_file ->
    filename img_file <> "" ->
    (save_error env (upload_path env img_file) = Some e
     \/ (save_error env (upload_path env img_file) = None
         /\ load_and_scale env (stream img_file) = inl e)
     \/ (save_error env (upload_path env img_file) = None
         /\ exists img_array,
              load_and_scale env (stream img_file) = inr img_array
              /\ m img_array = inl e)) ->
    fst (predict env request w)
    = error_response ("An unexpected server error occurred: " +:+ exn_str e) 500
    /\ exists made,
         calls (snd (predict env request w)) = (calls w ++ made)%list
         /\ forall s, ~ In (JsonLoads s) made.
Proof.
  intros env m request w f e Hm Hf Hname Hfail.
  pose proof (accepted_image_Some request f Hf Hname) as Ha.
  assert (Ho : image_outcome env m f = inl e).
  { unfold image_outcome.
    destruct Hfail as [Hs|[[Hs Hl]|[Hs [a [Hl Hp]]]]]; rewrite Hs; try rewrite Hl;
      try rewrite Hp; reflexivity. }
  rewrite (predict_image_raises env m request w e
             {| files := image_files env f w; calls := calls w ++ image_calls env f |}
             Hm).
  - split; [reflexivity|]. exists (image_calls env f). split; [reflexivity|].
    intros s. apply image_calls_no_parse.
  - rewrite (image_stage_accepts env m request w f Ha), Ho. reflexivity.
Qed.

Lemma X4_image_failure_ends_the_request_witness :
  fst (predict Scenario.serving
         (Scenario.request_of (Some Scenario.upload_broken)
            (Some Scenario.text_thresholds_met))
         Scenario.start)
  = error_response "An unexpected server error occurred: cannot identify image file" 500.
Proof.
  refine (proj1 (X4_image_failure_ends_the_request Scenario.serving Scenario.forward
                   (Scenario.request_of (Some Scenario.upload_broken)
                      (Some Scenario.text_thresholds_met))
                   Scenario.start Scenario.upload_broken
                   (Exn OtherException "cannot identify image file") _ _ _ _)).
  - reflexivity.
  - reflexivity.
  - discriminate.
  - right. left. split; reflexivity.
Defined.

(** X5.  With the model loaded, once the accepted file part is stored
    without an exception, the file at [img_path] holds the uploaded bytes
    when the request ends, whatever was there before and however the rest
    of the request goes (a file that cannot be decoded stays stored). *)
Theorem X5_upload_is_stored :
  forall env m request w img_file,
    model env = Some m ->
    files_image request = Some img_file ->
    filename img_file <> "" ->
    save_error env (upload_path env img_file) = None ->
    files (snd (predict env request w)) !! upload_path env img_file
    = Some (stream img_file).
Proof.
  intros env m request w f Hm Hf Hname Hs.
  pose proof (accepted_image_Some request f Hf Hname) as Ha.
  destruct (predict_uniform env request) as [response [made H]].
  rewrite H. cbn [snd files]. unfold files_after, image_files.
  rewrite Hm, Ha, Hs. apply lookup_insert_eq.
Qed.

Lemma X5_upload_is_stored_witness :
  files (snd (predict Scenario.serving
                (Scenario.request_of (Some Scenario.upload_broken) None)
                {| files := <["static/uploads/broken.png" := "earlier upload"]> ∅;
                   calls := [] |}))
  !! "static/uploads/broken.png"
  = Some "garbage".
Proof.
  exact (X5_upload_is_stored Scenario.serving Scenario.forward
           (Scenario.request_of (Some Scenario.upload_broken) None)
           {| files := <["static/uploads/broken.png" := "earlier upload"]> ∅;
              calls := [] |}
           Scenario.upload_broken eq_refl eq_refl ltac:(discriminate) eq_refl).
Defined.

(** X6.  A request writes no file other than the one at the [img_path] of
    its accepted file part: every other path holds after the request what
    it held before, and a request without an accepted file part leaves
    all files as they were. *)
Theorem X6_other_files_untouched :
  forall env request w path,
    (forall img_file,
        accepted_image request = Some img_file -> path <> upload_path env img_file) ->
    files (snd (predict env request w)) !! path = files w !! path.
Proof.
  intros env request w path Hother.
  destruct (predict_uniform env request) as [response [made H]].
  rewrite H. cbn [snd files]. unfold files_after, image_files.
  destruct (model env); [|reflexivity].
  destruct (accepted_image request) as [f|]; [|reflexivity].
  destruct (save_error env (upload_path env f)); [reflexivity|].
  apply lookup_insert_ne. intros E. apply (Hother f eq_refl). symmetry. exact E.
Qed.

Lemma X6_other_files_untouched_witness :
  files (snd (predict Scenario.serving
                (Scenario.request_of (Some Scenario.upload_high) None)
                {| files := <["static/uploads/low.png" := "image-low"]> ∅;
                   calls := [] |}))
  !! "static/uploads/low.png"
  = Some "image-low".
Proof.
  refine (eq_trans
            (X6_other_files_untouched Scenario.serving
               (Scenario.request_of (Some Scenario.upload_high) None)
               {| files := <["static/uploads/low.png" := "image-low"]> ∅;
                  calls := [] |}
               "static/uploads/low.png" _) _).
  - intros img_file H. inversion H. discriminate.
  - reflexivity.
Defined.

(** ** Successful requests *)

Lemma path_join_upload_nonempty (name : string) : path_join UPLOAD_FOLDER name <> "".
Proof.
  unfold path_join. destruct (String.prefix "/" name) eqn:Hp.
  - apply prefix_spec in Hp. destruct Hp as [after ->]. discriminate.
  - simpl. discriminate.
Qed.

Lemma biomedical_stage_value env request w :
  fst (biomedical_stage env request w)
  = inr match biomedical_result_of env request with
        | inl e => inl (biomedical_except e)
        | inr b => inr b
        end.
Proof.
  unfold biomedical_result_of.
  destruct (form_biomedicalData request) as [s|] eqn:Hs.
  - destruct (String.eqb_spec s "") as [->|Hne]; cbn [negb].
    + rewrite (biomedical_stage_skipped env request w); [reflexivity|].
      rewrite Hs. reflexivity.
    + rewrite (biomedical_stage_runs env request w s Hs Hne). cbn [fst].
      destruct (rule_outcome env s); reflexivity.
  - rewrite (biomedical_stage_skipped env request w); [reflexivity|].
    rewrite Hs. reflexivity.
Qed.

(** A response of status 200 is the prediction response of the two stage
    results and of the path of the accepted file part. *)
Lemma predict_200 env request w :
  status (predict env request w) = 200%Z ->
  exists m image_result biomedical_result,
    model env = Some m
    /\ image_result_of env m request = inr image_result
    /\ biomedical_result_of env request = inr biomedical_result
    /\ fst (predict env request w)
       = prediction_response image_result biomedical_result
           (fusion image_result biomedical_result)
           (option_map (upload_path env) (accepted_image request)).
Proof.
  unfold status. intros H200.
  destruct (model env) as [m|] eqn:Hm.
  2:{ unfold predict in H200. rewrite Hm in H200. discriminate H200. }
  exists m. unfold image_result_of.
  assert (Hfinish : forall i p w1,
             image_stage env m request w = (inr (i, p), w1) ->
             exists b, biomedical_result_of env request = inr b
                       /\ fst (predict env request w)
                          = prediction_response i b (fusion i b) p).
  { intros i p w1 Hi.
    rewrite (predict_after_image env m request w i p w1 Hm Hi) in *.
    pose proof (biomedical_stage_value env request w1) as Hv.
    destruct (biomedical_stage env request w1) as [[e|[response|b]] w2];
      cbn [fst] in Hv.
    - discriminate Hv.
    - destruct (biomedical_result_of env request) as [e|b]; inversion Hv; subst.
      destruct (biomedical_except_400 e) as [msg E]. rewrite E in H200.
      discriminate H200.
    - destruct (biomedical_result_of env request) as [e|b']; inversion Hv; subst.
      exists b'. split; reflexivity. }
  destruct (accepted_image request) as [f|] eqn:Ha.
  - pose proof (image_stage_accepts env m request w f Ha) as Hi.
    destruct (image_outcome env m f) as [e|l] eqn:Ho.
    + rewrite (predict_image_raises env m request w e _ Hm Hi) in H200.
      discriminate H200.
    + destruct (Hfinish _ _ _ Hi) as [b [Hb Hr]].
      exists (Some l), b. auto.
  - destruct (Hfinish _ _ _ (image_stage_declines env m request w Ha)) as [b [Hb Hr]].
    exists None, b. auto.
Qed.

(** X8.  The three fields are read in the order [eeg], [heartRate],
    [cholesterol], and the first one that raises decides the response:
    with the model loaded and the image stage through, the request ends
    with the response of the [except] clause for that exception, whatever
    the later fields hold. *)
Theorem X8_first_unreadable_field_decides :
  forall env m request w r w1 s biomedical_params e,
    model env = Some m ->
    image_stage env m request w = (inr r, w1) ->
    form_biomedicalData request = Some s ->
    s <> "" ->
    json_loads env s = inr biomedical_params ->
    (read_field env biomedical_params "eeg" = inl e
     \/ (exists eeg_score,
            read_field env biomedical_params "eeg" = inr eeg_score
            /\ read_field env biomedical_params "heartRate" = inl e)
     \/ (exists eeg_score heart_rate,
            read_field env biomedical_params "eeg" = inr eeg_score
            /\ read_field env biomedical_params "heartRate" = inr heart_rate
            /\ read_field env biomedical_params "cholesterol" = inl e)) ->
    predict env request w = (biomedical_except e, after_call (JsonLoads s) w1).
Proof.
  intros env m request w r w1 s params e Hm Hi Hs Hne Hj Hfield.
  apply (predict_biomedical_raises env m request w r w1 s e Hm Hi Hs Hne).
  unfold rule_outcome. rewrite Hj.
  destruct Hfield as [He|[[x [He Hh]]|[x [y [He [Hh Hc]]]]]].
  - rewrite He. reflexivity.
  - rewrite He, Hh. reflexivity.
  - rewrite He, Hh, Hc. reflexivity.
Qed.

Lemma X8_first_unreadable_field_decides_witness :
  predict Cases.serving
    (Scenario.request_of None (Some Cases.text_two_bad_fields)) Scenario.start
  = (error_response
       ("Invalid biomedical data format. Please ensure numerical inputs are numbers: "
        +:+ "could not convert string to float: 'abc'") 400,
     after_call (JsonLoads Cases.text_two_bad_fields) Scenario.start).
Proof.
  refine (X8_first_unreadable_field_decides Cases.serving Scenario.forward
            (Scenario.request_of None (Some Cases.text_two_bad_fields)) Scenario.start
            (None, None) Scenario.start Cases.text_two_bad_fields
            (JObj [("eeg", JStr "abc"); ("heartRate", JNull)])
            (Exn ValueError "could not convert string to float: 'abc'")
            _ _ _ _ _ _).
  - reflexivity.
  - reflexivity.
  - reflexivity.
  - discriminate.
  - reflexivity.
  - left. reflexivity.
Defined.

(** X9.  Which [except] clause answers for a value that [float] rejects
    depends on the kind of the value: for a string it is the [ValueError]
    clause, for [null], an array, an object or an integer too large for a
    float it is the last clause.  Stated for the field [eeg], the first
    one read. *)
Theorem X9_clause_by_kind_of_value :
  forall env m request w r w1 s items v e,
    model env = Some m ->
    image_stage env m request w = (inr r, w1) ->
    form_biomedicalData request = Some s ->
    s <> "" ->
    json_loads env s = inr (JObj items) ->
    lookup_item "eeg" items = Some v ->
    ne_empty_str v = true ->
    py_float env v = inl e ->
    fst (predict env request w)
    = match v with
      | JStr _ =>
          error_response
            ("Invalid biomedical data format. Please ensure numerical inputs are numbers: "
             +:+ exn_str e) 400
      | _ => error_response ("Error processing biomedical data: " +:+ exn_str e) 400
      end.
Proof.
  intros env m request w r w1 s items v e Hm Hi Hs Hne Hj Hl Hv Hf.
  assert (Ho : rule_outcome env s = inl e).
  { unfold rule_outcome. rewrite Hj, (read_field_float env items "eeg" v Hl Hv), Hf.
    reflexivity. }
  rewrite (predict_biomedical_raises env m request w r w1 s e Hm Hi Hs Hne Ho).
  cbn [fst]. unfold biomedical_except. unfold py_float in Hf.
  destruct v as [| b | z | f | str | l | l]; try discriminate Hf.
  - inversion Hf. reflexivity.
  - destruct (float_of_Z z); inversion Hf. reflexivity.
  - destruct (float_of_str env str); inversion Hf. reflexivity.
  - inversion Hf. reflexivity.
  - inversion Hf. reflexivity.
Qed.

Lemma X9_clause_by_kind_of_value_witness :
  fst (predict Cases.serving
         (Scenario.request_of None (Some Cases.text_null_field)) Scenario.start)
  = error_response
      ("Error processing biomedical data: "
       +:+ "float() argument must be a string or a real number, not 'NoneType'") 400.
Proof.
  exact (X9_clause_by_kind_of_value Cases.serving Scenario.forward
           (Scenario.request_of None (Some Cases.text_null_field)) Scenario.start
           (None, None) Scenario.start Cases.text_null_field
           [("eeg", JNull)] JNull
           (Exn OtherException
              "float() argument must be a string or a real number, not 'NoneType'")
           eq_refl eq_refl eq_refl ltac:(discriminate) eq_refl eq_refl eq_refl eq_refl).
Defined.

(** X10.  A dict in which [eeg] is missing or empty never gets the risk
    label: the field reads as 0.0, which is not above 7.0.  A dict in
    which [heartRate] is missing or empty gets the risk label exactly
    when [eeg] is above 7.0: the field reads as 0.0, which is below
    70.0. *)
Theorem X10_missing_fields :
  forall env s w items l w',
    json_loads env s = inr (JObj items) ->
    biomedical_rule env s w = (inr l, w') ->
    ((lookup_item "eeg" items = None \/ lookup_item "eeg" items = Some (JStr "")) ->
     l = LOW_RISK)
    /\ ((lookup_item "heartRate" items = None
         \/ lookup_item "heartRate" items = Some (JStr "")) ->
        forall eeg_score,
          read_field env (JObj items) "eeg" = inr eeg_score ->
          (l = RISK <-> float_gt eeg_score f_7_0 = true)).
Proof.
  intros env s w items l w' Hj Hrule.
  rewrite biomedical_rule_outcome in Hrule. inversion Hrule as [[Ho Hw]]. clear Hrule Hw.
  unfold rule_outcome in Ho. rewrite Hj in Ho.
  split.
  - intros Hmissing. rewrite (read_field_default env items "eeg" Hmissing) in Ho.
    destruct (read_field env (JObj items) "heartRate") as [e|hr]; [discriminate|].
    destruct (read_field env (JObj items) "cholesterol") as [e|c]; [discriminate|].
    inversion Ho. reflexivity.
  - intros Hmissing x Hx.
    rewrite Hx, (read_field_default env items "heartRate" Hmissing) in Ho.
    destruct (read_field env (JObj items) "cholesterol") as [e|c]; [discriminate|].
    inversion Ho. unfold biomedical_label.
    change (float_lt f_0_0 f_70_0) with true. rewrite andb_true_r.
    destruct (float_gt x f_7_0); split; intros H; try reflexivity; discriminate H.
Qed.

Lemma X10_missing_fields_witness :
  biomedical_label f_0_0 (float_of_Z 60) = LOW_RISK
  /\ (biomedical_label (float_of_Z 8) f_0_0 = RISK
      <-> float_gt (float_of_Z 8) f_7_0 = true).
Proof.
  split.
  - refine (proj1 (X10_missing_fields Cases.serving Cases.text_heart_rate_only
                     Scenario.start [("heartRate", JStr "60")]
                     (biomedical_label f_0_0 (float_of_Z 60))
                     (after_call (JsonLoads Cases.text_heart_rate_only) Scenario.start)
                     _ _) _).
    + reflexivity.
    + reflexivity.
    + left. reflexivity.
  - refine (proj2 (X10_missing_fields Cases.serving Cases.text_eeg_only
                     Scenario.start [("eeg", JStr "8")]
                     (biomedical_label (float_of_Z 8) f_0_0)
                     (after_call (JsonLoads Cases.text_eeg_only) Scenario.start)
                     _ _) _ (float_of_Z 8) _).
    + reflexivity.
    + reflexivity.
    + left. reflexivity.
    + reflexivity.
Defined.

(** ** Start-up and the model guard *)

(** X11.  A failure of [load_model] at start-up does not stop the
    service; it shows in the answers of [predict].  When the global
    [model] is what lines 19-25 leave in it, a request is answered 500
    with 'AI model not loaded on server.' exactly when [load_model]
    raised; after a successful load no request gets that answer. *)
Theorem X11_load_failure_shows_in_predict :
  forall env (load_model : string -> exn + keras_model (ndarray env)) request w,
    model env = load_global_model load_model ->
    (fst (predict env request w) = error_response "AI model not loaded on server." 500
     <-> exists e, load_model MODEL_FILE = inl e).
Proof.
  intros env load_model request w Hmodel. unfold load_global_model in Hmodel.
  destruct (load_model MODEL_FILE) as [e|m] eqn:Hload.
  - split; [eauto|]. intros _. unfold predict. rewrite Hmodel. reflexivity.
  - split; [|intros [e He]; discriminate He]. intros H. exfalso.
    destruct (image_stage env m request w) as [[e|[i p]] w1] eqn:Hi.
    + rewrite (predict_image_raises env m request w e w1 Hmodel Hi) in H.
      cbn [fst] in H. unfold error_response, jsonify in H. simpl in H. discriminate H.
    + rewrite (predict_after_image env m request w i p w1 Hmodel Hi) in H.
      destruct (biomedical_stage_cases env request w1) as [w2 [Hb|[[e Hb]|[l [Hb _]]]]];
        rewrite Hb in H; cbn [fst] in H.
      * discriminate H.
      * destruct (biomedical_except_400 e) as [msg E]. rewrite E in H. discriminate H.
      * discriminate H.
Qed.

Lemma X11_load_failure_shows_in_predict_witness :
  fst (predict Scenario.model_missing
         (Scenario.request_of (Some Scenario.upload_high) None) Scenario.start)
  = error_response "AI model not loaded on server." 500
  /\ fst (predict Scenario.serving
            (Scenario.request_of (Some Scenario.upload_broken) None) Scenario.start)
     <> error_response "AI model not loaded on server." 500.
Proof.
  split.
  - apply (X11_load_failure_shows_in_predict Scenario.model_missing Cases.load_fails
             (Scenario.request_of (Some Scenario.upload_high) None) Scenario.start
             eq_refl).
    eexists. reflexivity.
  - intros H.
    apply (X11_load_failure_shows_in_predict Scenario.serving Cases.load_succeeds
             (Scenario.request_of (Some Scenario.upload_broken) None) Scenario.start
             eq_refl) in H.
    destruct H as [e He]. discriminate He.
Defined.

(** ** The stored path in the response *)

(** X12.  In a response of status 200 the member [image_path] is [null]
    when the request has no accepted file part, and otherwise the string
    '/' followed by [img_path]; [img_path] is 'static/uploads/' followed
    by the secured file name whenever that name does not begin with
    '/'. *)
Theorem X12_image_path :
  forall env request w,
    status (predict env request w) = 200%Z ->
    member "image_path" (body (predict env request w))
    = Some match accepted_image request with
           | Some img_file => JStr ("/" +:+ upload_path env img_file)
           | None => JNull
           end
    /\ forall img_file,
         String.prefix "/" (secure_filename env (filename img_file)) = false ->
         upload_path env img_file
         = "static/uploads/" +:+ secure_filename env (filename img_file).
Proof.
  intros env request w H200. split.
  - destruct (predict_200 env request w H200) as [m [i [b [_ [_ [_ Hr]]]]]].
    unfold body. rewrite Hr. cbn [fst prediction_response jsonify member lookup_item].
    simpl String.eqb. cbn iota.
    destruct (accepted_image request) as [f|]; cbn [option_map]; [|reflexivity].
    pose proof (path_join_upload_nonempty (secure_filename env (filename f))) as Hne.
    apply truthy_Some in Hne. unfold upload_path. rewrite Hne. reflexivity.
  - intros f Hp. unfold upload_path, path_join. rewrite Hp. reflexivity.
Qed.

Lemma X12_image_path_witness :
  member "image_path"
    (body (predict Scenario.serving
             (Scenario.request_of (Some Scenario.upload_high) None) Scenario.start))
  = Some (JStr "/static/uploads/high.png").
Proof.
  exact (proj1 (X12_image_path Scenario.serving
                  (Scenario.request_of (Some Scenario.upload_high) None)
                  Scenario.start eq_refl)).
Defined.

(** ** The two inputs do not touch each other's label *)

(** X13.  Among responses of status 200, [image_prediction] is a function
    of the file part alone and [biomedical_prediction] of [biomedicalData]
    alone: two requests with the same file part carry the same image
    label whatever their biomedical data, and the other way round. *)
Theorem X13_labels_do_not_interfere :
  forall env request request' w w',
    status (predict env request w) = 200%Z ->
    status (predict env request' w') = 200%Z ->
    (files_image request = files_image request' ->
     member "image_prediction" (body (predict env request w))
     = member "image_prediction" (body (predict env request' w')))
    /\ (form_biomedicalData request = form_biomedicalData request' ->
        member "biomedical_prediction" (body (predict env request w))
        = member "biomedical_prediction" (body (predict env request' w'))).
Proof.
  intros env request request' w w' H H'.
  destruct (predict_200 env request w H) as [m [i [b [Hm [Hi [Hb Hr]]]]]].
  destruct (predict_200 env request' w' H') as [m' [i' [b' [Hm' [Hi' [Hb' Hr']]]]]].
  unfold body. rewrite Hr, Hr'.
  rewrite Hm in Hm'. inversion Hm'. subst m'.
  split; intros Heq.
  - unfold image_result_of, accepted_image in Hi, Hi'. rewrite Heq in Hi.
    rewrite Hi in Hi'. inversion Hi'. reflexivity.
  - unfold biomedical_result_of in Hb, Hb'. rewrite Heq in Hb.
    rewrite Hb in Hb'. inversion Hb'. reflexivity.
Qed.

Lemma X13_labels_do_not_interfere_witness :
  member "image_prediction"
    (body (predict Scenario.serving
             (Scenario.request_of (Some Scenario.upload_high)
                (Some Scenario.text_thresholds_met))
             Scenario.start))
  = member "image_prediction"
      (body (predict Scenario.serving
               (Scenario.request_of (Some Scenario.upload_high) None)
               Scenario.start)).
Proof.
  apply (proj1 (X13_labels_do_not_interfere Scenario.serving
                  (Scenario.request_of (Some Scenario.upload_high)
                     (Some Scenario.text_thresholds_met))
                  (Scenario.request_of (Some Scenario.upload_high) None)
                  Scenario.start Scenario.start eq_refl eq_refl)).
  reflexivity.
Defined.

(** ** A biomedical error after a good image *)

(** X14.  When the image stage has produced a label and the biomedical
    stage then raises, the request ends with the 400 response of the
    biomedical stage alone: it has no [image_prediction] and no
    [image_path] member, although the upload is stored and the model was
    called. *)
Theorem X14_biomedical_error_drops_the_image_label :
  forall env m request w img_file l s e,
    model env = Some m ->
    files_image request = Some img_file ->
    filename img_file <> "" ->
    image_outcome env m img_file = inr l ->
    form_biomedicalData request = Some s ->
    s <> "" ->
    rule_outcome env s = inl e ->
    predict env request w
    = (biomedical_except e,
       {| files := <[upload_path env img_file := stream img_file]> (files w);
          calls := calls w ++ [Save (upload_path env img_file);
                               PreprocessImage (upload_path env img_file);
                               ModelPredict; JsonLoads s] |})
    /\ status (predict env request w) = 400%Z
    /\ member "image_prediction" (body (predict env request w)) = None
    /\ member "image_path" (body (predict env request w)) = None.
Proof.
  intros env m request w f l s e Hm Hf Hname Ho Hs Hne He.
  pose proof (accepted_image_Some request f Hf Hname) as Ha.
  pose proof (image_stage_accepts env m request w f Ha) as Hi.
  rewrite Ho in Hi.
  rewrite (predict_biomedical_raises env m request w _ _ s e Hm Hi Hs Hne He).
  assert (Hfiles : image_files env f w = <[upload_path env f := stream f]> (files w)
                   /\ image_calls env f
                      = [Save (upload_path env f); PreprocessImage (upload_path env f);
                         ModelPredict]).
  { unfold image_files, image_calls. unfold image_outcome in Ho.
    destruct (save_error env (upload_path env f)); [discriminate|].
    destruct (load_and_scale env (stream f)); [discriminate|]. auto. }
  destruct Hfiles as [-> ->].
  unfold after_call, status, body. cbn [files calls fst snd].
  rewrite <- app_assoc.
  destruct (biomedical_except_400 e) as [msg ->].
  repeat split; reflexivity.
Qed.

Lemma X14_biomedical_error_drops_the_image_label_witness :
  status (predict Scenario.serving
            (Scenario.request_of (Some Scenario.upload_high)
               (Some Scenario.text_not_a_number))
            Scenario.start) = 400%Z
  /\ member "image_prediction"
       (body (predict Scenario.serving
                (Scenario.request_of (Some Scenario.upload_high)
                   (Some Scenario.text_not_a_number))
                Scenario.start)) = None.
Proof.
  destruct (X14_biomedical_error_drops_the_image_label Scenario.serving Scenario.forward
              (Scenario.request_of (Some Scenario.upload_high)
                 (Some Scenario.text_not_a_number))
              Scenario.start Scenario.upload_high NON_AUTISTIC
              Scenario.text_not_a_number
              (Exn ValueError "could not convert string to float: 'abc'")
              eq_refl eq_refl ltac:(discriminate) eq_refl eq_refl
              ltac:(discriminate) eq_refl) as [_ [H400 [Hlabel _]]].
  split; [exact H400|exact Hlabel].
Defined.
